(** * Stock: the SQLite data-access layer and the positions page

    A shallow embedding of [db/db.py] (class [Database]) and of the
    valuation loop of [AccountPages/Positions.py] (class [PositionsPage]).

    Conventions of the embedding.
    - The SQLite file is a [store]: its catalog ([sqlite_master]) and the
      rows of the four tables.  Every method of [Database] opens a
      connection, executes, commits and closes; it is a function
      [store -> outcome A * store].  A statement that raises leaves the
      store as it found it.
    - Python exceptions are values of [exn]; a method either returns
      ([Return]) or raises ([Raise]).
    - A Python float and a value of a [REAL] column are binary64 floats
      ([PrimFloat.float]); a Python int and a value of an [INTEGER] column
      are [Z].  Arithmetic is Python's: an int that meets a float is
      converted to the nearest float first (OverflowError when it is out of
      range) and every result is rounded to the nearest float, ties to
      even.  A NaN bound to a statement is stored as NULL.
    - [bcrypt] and the clock are inputs: the hash function is a section
      variable, the salt and the current time are arguments. *)

From Stdlib Require Import String Ascii List Bool ZArith Lia.
From Stdlib Require Import PrimFloat FloatOps SpecFloat.
Import ListNotations.

Set Implicit Arguments.

(** ** Python outcomes and values *)

Inductive exn : Type :=
| OperationalError   (* sqlite3: no such table, no such column *)
| IntegrityError     (* sqlite3: UNIQUE / NOT NULL constraint failed *)
| ProgrammingError   (* sqlite3: incorrect number of bindings supplied *)
| TypeError          (* 'NoneType' object is not subscriptable *)
| ZeroDivisionError
| OverflowError.     (* int too large to convert to float *)

Inductive outcome (A : Type) : Type :=
| Return (a : A)
| Raise (e : exn).

Arguments Return {A} a.
Arguments Raise {A} e.

(** Sequencing of computations that may raise. *)
Definition and_then {A B} (o : outcome A) (k : A -> outcome B) : outcome B :=
  match o with
  | Return a => k a
  | Raise e => Raise e
  end.

Declare Scope outcome_scope.
Delimit Scope outcome_scope with outcome.
Notation "x <- m ;; k" := (and_then m (fun x => k))
  (at level 61, m at next level, right associativity) : outcome_scope.

(** A Python number: an int or a float. *)
Inductive number : Type :=
| Int (z : Z)
| Float (f : float).

(** The float an int is converted to when it meets a float in an
    arithmetic operation: the nearest binary64 value, ties to even. *)
Definition float_of_int (z : Z) : outcome float :=
  match binary_normalize prec emax z 0 false with
  | S754_infinity _ => Raise OverflowError
  | x => Return (SF2Prim x)
  end.

Definition to_float (n : number) : outcome float :=
  match n with
  | Int z => float_of_int z
  | Float f => Return f
  end.

(** [x + n] and [x - n] where [x] is what a REAL column gave back, a float
    or [None], and [n] is a number. *)
Definition py_add (x : option float) (n : number) : outcome float :=
  match x with
  | None => Raise TypeError
  | Some b =>
      match to_float n with
      | Return f => Return (b + f)%float
      | Raise e => Raise e
      end
  end.

Definition py_sub (x : option float) (n : number) : outcome float :=
  match x with
  | None => Raise TypeError
  | Some b =>
      match to_float n with
      | Return f => Return (b - f)%float
      | Raise e => Raise e
      end
  end.

(** [x / n] for a float [x]: true division, which raises on a zero
    divisor of either sign. *)
Definition py_truediv (x : float) (n : number) : outcome float :=
  match to_float n with
  | Return d => if (d =? 0)%float then Raise ZeroDivisionError
                else Return (x / d)%float
  | Raise e => Raise e
  end.

(** [n * x] for a float [x]. *)
Definition py_mul (n : number) (x : float) : outcome float :=
  match to_float n with
  | Return f => Return (f * x)%float
  | Raise e => Raise e
  end.

(** What a REAL column holds once a Python float was bound to it: SQLite
    turns NaN into NULL. *)
Definition bind_real (f : float) : option float :=
  if is_nan f then None else Some f.

Inductive pyval : Type :=
| PyNone
| PyBool (b : bool)
| PyInt (z : Z)
| PyFloat (f : float)
| PyStr (s : string).

(** Truth value testing, as [if v:] and [bool(v)] do. *)
Definition truthy (v : pyval) : bool :=
  match v with
  | PyNone => false
  | PyBool b => b
  | PyInt z => negb (Z.eqb z 0)
  | PyFloat f => negb (f =? 0)%float
  | PyStr s => negb (String.eqb s EmptyString)
  end.

(** Whether an integer and a float are the same number. *)
Definition int_eqb_float (z : Z) (f : float) : bool :=
  match Prim2SF f with
  | S754_zero _ => Z.eqb z 0
  | S754_finite s m e =>
      let v := if s then Zneg m else Zpos m in
      if Z.leb 0 e then Z.eqb z (v * 2 ^ e) else Z.eqb (z * 2 ^ (- e)) v
  | _ => false
  end.

(** Equality of two SQL values as [=] in a WHERE or ON clause sees it;
    a NULL on either side never compares equal. *)
Definition sql_eqb (a b : pyval) : bool :=
  match a, b with
  | PyInt x, PyInt y => Z.eqb x y
  | PyFloat x, PyFloat y => (x =? y)%float
  | PyInt x, PyFloat y => int_eqb_float x y
  | PyFloat x, PyInt y => int_eqb_float y x
  | PyStr x, PyStr y => String.eqb x y
  | PyBool x, PyBool y => Bool.eqb x y
  | _, _ => false
  end.

(** A [str] iterated as a sequence: its one-character substrings. *)
Definition str_items (s : string) : list string :=
  map (fun c => String c EmptyString) (list_ascii_of_string s).

(** ASCII case folding, as SQLite compares the names of tables, views and
    indexes. *)
Definition lower_ascii (c : ascii) : ascii :=
  let n := nat_of_ascii c in
  if Nat.leb 65 n && Nat.leb n 90 then ascii_of_nat (n + 32) else c.

Fixpoint lower (s : string) : string :=
  match s with
  | EmptyString => EmptyString
  | String c r => String (lower_ascii c) (lower r)
  end.

Definition same_name (a b : string) : bool := String.eqb (lower a) (lower b).

(** ** The store *)

Module SqliteMaster.
Record row : Type := { type : string; name : string }.
End SqliteMaster.

Module Users.
Record row : Type :=
  { id : Z;
    username : string;
    password : string;
    email : option string;
    balance : option float;
    creation_date : Z }.
End Users.

Module Portfolios.
Record row : Type :=
  { id : Z;
    user_id : option Z;
    portfolio_name : string;
    created_at : Z }.
End Portfolios.

Module Tickers.
Record row : Type :=
  { id : Z;
    ticker_symbol : string;
    current_price : option float;
    company_name : option string;
    updated_at : Z }.
End Tickers.

Module Positions.
Record row : Type :=
  { portfolio_id : Z;
    ticker_id : Z;
    quantity : Z;
    purchase_date : Z;
    purchase_price : float }.
End Positions.

Record store : Type :=
  { sqlite_master : list SqliteMaster.row;
    users_seq : Z;   (* sqlite_sequence entry of users (AUTOINCREMENT) *)
    users : list Users.row;
    portfolios : list Portfolios.row;
    tickers : list Tickers.row;
    positions : list Positions.row }.

(** A connection as [sqlite3.connect] hands it out.  Foreign-key
    enforcement is a per-connection setting of SQLite, off unless
    [PRAGMA foreign_keys = ON] is executed on the connection. *)
Record connection : Type := { foreign_keys : bool }.

(** ** Methods as store transformers with exceptions *)

Definition db_op (A : Type) : Type := store -> outcome A * store.

Definition ret {A} (a : A) : db_op A := fun db => (Return a, db).

Definition raise {A} (e : exn) : db_op A := fun db => (Raise e, db).

(** The outcome of a computation that does not touch the store. *)
Definition lift {A} (o : outcome A) : db_op A := fun db => (o, db).

Definition bind {A B} (m : db_op A) (k : A -> db_op B) : db_op B :=
  fun db =>
    match m db with
    | (Return a, db') => k a db'
    | (Raise e, db') => (Raise e, db')
    end.

Definition exn_eqb (a b : exn) : bool :=
  match a, b with
  | OperationalError, OperationalError
  | IntegrityError, IntegrityError
  | ProgrammingError, ProgrammingError
  | TypeError, TypeError
  | ZeroDivisionError, ZeroDivisionError
  | OverflowError, OverflowError => true
  | _, _ => false
  end.

(** [try: m  except e: h]. *)
Definition try_except {A} (m : db_op A) (e : exn) (h : db_op A) : db_op A :=
  fun db =>
    match m db with
    | (Return a, db') => (Return a, db')
    | (Raise e', db') => if exn_eqb e' e then h db' else (Raise e', db')
    end.

Declare Scope db_scope.
Delimit Scope db_scope with db.
Notation "x <- m ;; k" := (bind m (fun x => k))
  (at level 61, m at next level, right associativity) : db_scope.
Notation "m ;;; k" := (bind m (fun _ => k))
  (at level 61, right associativity) : db_scope.

(** [cursor.fetchone()]: the next row, or [None] when there is none. *)
Definition fetchone {A} (rows : list A) : option A := hd_error rows.

(** [x[0]] on what [fetchone] returned: subscripting [None] raises. *)
Definition subscript {A} (x : option A) : db_op A :=
  match x with
  | Some a => ret a
  | None => raise TypeError
  end.

(** ** SQL statements of db.py *)

Module Sql.

Definition has_table (n : string) (db : store) : bool :=
  existsb (fun e => String.eqb (SqliteMaster.type e) "table"
                    && String.eqb (SqliteMaster.name e) n)
          (sqlite_master db).

(** Statements on a table the catalog does not have do not prepare. *)
Definition on_table {A} (n : string) (m : db_op A) : db_op A :=
  fun db => if has_table n db then m db else (Raise OperationalError, db).

(** SELECT name FROM sqlite_master WHERE type='table'
      AND name IN ('users', 'portfolios', 'tickers', 'positions') *)
Definition select_required_tables (db : store) : list string :=
  map SqliteMaster.name
    (filter (fun e => String.eqb (SqliteMaster.type e) "table"
                      && existsb (String.eqb (SqliteMaster.name e))
                           ["users"; "portfolios"; "tickers"; "positions"]%string)
            (sqlite_master db)).

(** CREATE TABLE IF NOT EXISTS n (...)
    SQLite looks the name up without regard to case: a table or a view of
    that name makes the statement a no-op, an index of that name makes it
    fail ("there is already an index named n"); otherwise the table is
    created, empty. *)
Definition create_table_if_not_exists (n : string) : db_op unit :=
  fun db =>
    if existsb (fun e => (String.eqb (SqliteMaster.type e) "table"
                          || String.eqb (SqliteMaster.type e) "view")
                         && same_name (SqliteMaster.name e) n)
               (sqlite_master db)
    then (Return tt, db)
    else if existsb (fun e => String.eqb (SqliteMaster.type e) "index"
                              && same_name (SqliteMaster.name e) n)
                    (sqlite_master db)
    then (Raise OperationalError, db)
    else
      (Return tt,
       {| sqlite_master :=
            sqlite_master db ++ [ {| SqliteMaster.type := "table";
                                     SqliteMaster.name := n |} ];
          users_seq := users_seq db;
          users := if String.eqb n "users" then [] else users db;
          portfolios := if String.eqb n "portfolios" then [] else portfolios db;
          tickers := if String.eqb n "tickers" then [] else tickers db;
          positions := if String.eqb n "positions" then [] else positions db |}).

(** SELECT balance FROM users WHERE username = ? *)
Definition select_balance (username : string) : db_op (list (option float)) :=
  on_table "users" (fun db =>
    (Return (map Users.balance
               (filter (fun r => String.eqb (Users.username r) username)
                       (users db))), db)).

(** SELECT 1 FROM users WHERE username = ? *)
Definition select_one (username : string) : db_op (list Z) :=
  on_table "users" (fun db =>
    (Return (map (fun _ => 1%Z)
               (filter (fun r => String.eqb (Users.username r) username)
                       (users db))), db)).

Definition set_balance (b : option float) (r : Users.row) : Users.row :=
  {| Users.id := Users.id r;
     Users.username := Users.username r;
     Users.password := Users.password r;
     Users.email := Users.email r;
     Users.balance := b;
     Users.creation_date := Users.creation_date r |}.

Definition with_users (us : list Users.row) (db : store) : store :=
  {| sqlite_master := sqlite_master db;
     users_seq := users_seq db;
     users := us;
     portfolios := portfolios db;
     tickers := tickers db;
     positions := positions db |}.

(** UPDATE users SET balance = ? WHERE username = ?
    The first parameter is a Python float. *)
Definition update_balance (b : float) (username : string) : db_op unit :=
  on_table "users" (fun db =>
    (Return tt,
     with_users
       (map (fun r => if String.eqb (Users.username r) username
                      then set_balance (bind_real b) r else r)
            (users db))
       db)).

(** INSERT INTO users (username, password, email) VALUES (?, ?, ?)
    [username] is UNIQUE; [id] is AUTOINCREMENT; [balance] defaults to
    0.0 and [creation_date] to CURRENT_TIMESTAMP. *)
Definition insert_user (username password : string) (email : option string)
           (now : Z) : db_op unit :=
  on_table "users" (fun db =>
    if existsb (fun r => String.eqb (Users.username r) username) (users db)
    then (Raise IntegrityError, db)
    else
      let new_id :=
        Z.succ (fold_right Z.max (users_seq db) (map Users.id (users db))) in
      (Return tt,
       {| sqlite_master := sqlite_master db;
          users_seq := new_id;
          users := users db ++ [ {| Users.id := new_id;
                                    Users.username := username;
                                    Users.password := password;
                                    Users.email := email;
                                    Users.balance := Some 0%float;
                                    Users.creation_date := now |} ];
          portfolios := portfolios db;
          tickers := tickers db;
          positions := positions db |})).

(** DELETE FROM tickers WHERE ticker_symbol=?
    With foreign keys enforced on the connection, ON DELETE CASCADE of
    [positions.ticker_id] removes the rows that reference a deleted
    ticker; without enforcement the clause is parsed and ignored. *)
Definition delete_ticker (conn : connection) (symbol : string) : db_op unit :=
  on_table "tickers" (fun db =>
    let hit := fun t => String.eqb (Tickers.ticker_symbol t) symbol in
    let gone := map Tickers.id (filter hit (tickers db)) in
    (Return tt,
     {| sqlite_master := sqlite_master db;
        users_seq := users_seq db;
        users := users db;
        portfolios := portfolios db;
        tickers := filter (fun t => negb (hit t)) (tickers db);
        positions :=
          if foreign_keys conn
          then filter (fun p => negb (existsb (Z.eqb (Positions.ticker_id p)) gone))
                      (positions db)
          else positions db |})).

(** *** The two-table SELECT of [get_portfolio_positions]

    The statement is kept as data, so that what its column references name
    is decided the way SQLite decides it when it prepares the statement:
    a reference [a.c] resolves when [a] is an alias bound by FROM or JOIN
    and [c] is a column of the table bound to it. *)

Record column_ref : Type := { qualifier : string; column : string }.

Record join_select : Type :=
  { result_columns : list column_ref;
    from_table : string;
    from_alias : string;
    join_table : string;
    join_alias : string;
    on_left : column_ref;
    on_right : column_ref;
    where_column : column_ref }.

(** Columns of the tables, as create_schema declares them. *)
Definition table_columns (n : string) : list string :=
  if String.eqb n "users" then
    ["id"; "username"; "password"; "email"; "balance"; "creation_date"]%string
  else if String.eqb n "portfolios" then
    ["id"; "user_id"; "portfolio_name"; "created_at"]%string
  else if String.eqb n "tickers" then
    ["id"; "ticker_symbol"; "current_price"; "company_name"; "updated_at"]%string
  else if String.eqb n "positions" then
    ["portfolio_id"; "ticker_id"; "quantity"; "purchase_date"; "purchase_price"]%string
  else [].

Definition nullable {A} (f : A -> pyval) (o : option A) : pyval :=
  match o with
  | Some a => f a
  | None => PyNone
  end.

Definition named_row : Type := list (string * pyval).

Definition tickers_row (t : Tickers.row) : named_row :=
  [ ("id", PyInt (Tickers.id t));
    ("ticker_symbol", PyStr (Tickers.ticker_symbol t));
    ("current_price", nullable PyFloat (Tickers.current_price t));
    ("company_name", nullable PyStr (Tickers.company_name t));
    ("updated_at", PyInt (Tickers.updated_at t)) ]%string.

Definition positions_row (p : Positions.row) : named_row :=
  [ ("portfolio_id", PyInt (Positions.portfolio_id p));
    ("ticker_id", PyInt (Positions.ticker_id p));
    ("quantity", PyInt (Positions.quantity p));
    ("purchase_date", PyInt (Positions.purchase_date p));
    ("purchase_price", PyFloat (Positions.purchase_price p)) ]%string.

Definition users_row (u : Users.row) : named_row :=
  [ ("id", PyInt (Users.id u));
    ("username", PyStr (Users.username u));
    ("password", PyStr (Users.password u));
    ("email", nullable PyStr (Users.email u));
    ("balance", nullable PyFloat (Users.balance u));
    ("creation_date", PyInt (Users.creation_date u)) ]%string.

Definition portfolios_row (f : Portfolios.row) : named_row :=
  [ ("id", PyInt (Portfolios.id f));
    ("user_id", nullable PyInt (Portfolios.user_id f));
    ("portfolio_name", PyStr (Portfolios.portfolio_name f));
    ("created_at", PyInt (Portfolios.created_at f)) ]%string.

(** The rows of a table by name; [None] when the catalog has no such table. *)
Definition table_rows (n : string) (db : store) : option (list named_row) :=
  if negb (has_table n db) then None
  else if String.eqb n "users" then Some (map users_row (users db))
  else if String.eqb n "portfolios" then Some (map portfolios_row (portfolios db))
  else if String.eqb n "tickers" then Some (map tickers_row (tickers db))
  else if String.eqb n "positions" then Some (map positions_row (positions db))
  else None.

(** The table an alias is bound to by the FROM and JOIN clauses. *)
Definition bound_table (q : join_select) (a : string) : option string :=
  if String.eqb a (from_alias q) then Some (from_table q)
  else if String.eqb a (join_alias q) then Some (join_table q)
  else None.

Definition resolves (q : join_select) (c : column_ref) : bool :=
  match bound_table q (qualifier c) with
  | Some t => existsb (String.eqb (column c)) (table_columns t)
  | None => false
  end.

Definition column_refs (q : join_select) : list column_ref :=
  result_columns q ++ [on_left q; on_right q; where_column q].

Definition column_value (q : join_select) (l r : named_row) (c : column_ref)
  : pyval :=
  let row := if String.eqb (qualifier c) (from_alias q) then l else r in
  match find (fun kv => String.eqb (fst kv) (column c)) row with
  | Some kv => snd kv
  | None => PyNone
  end.

(** SELECT result_columns FROM from_table from_alias
      JOIN join_table join_alias ON on_left = on_right
      WHERE where_column = ? *)
Definition execute_join (q : join_select) (param : pyval)
  : db_op (list (list pyval)) :=
  fun db =>
    match table_rows (from_table q) db, table_rows (join_table q) db with
    | Some ls, Some rs =>
        if forallb (resolves q) (column_refs q) then
          (Return
             (flat_map
                (fun l =>
                   flat_map
                     (fun r =>
                        if sql_eqb (column_value q l r (on_left q))
                                   (column_value q l r (on_right q))
                           && sql_eqb (column_value q l r (where_column q)) param
                        then [map (column_value q l r) (result_columns q)]
                        else [])
                     rs)
                ls),
           db)
        else (Raise OperationalError, db)
    | _, _ => (Raise OperationalError, db)
    end.

End Sql.
(** ** class Database (db/db.py) *)

Module Database.

Local Open Scope db_scope.

Definition required_tables : list string :=
  ["users"; "portfolios"; "tickers"; "positions"]%string.

(** [sqlite3.connect(self.db_name)]: no pragma is executed on the
    connection, so it keeps SQLite's setting for foreign keys. *)
Definition _connect : connection := {| foreign_keys := false |}.

(** [cursor.executescript(schema)]: the four statements in order, each
    committed as it runs. *)
Definition create_schema : db_op pyval :=
  Sql.create_table_if_not_exists "users" ;;;
  Sql.create_table_if_not_exists "portfolios" ;;;
  Sql.create_table_if_not_exists "tickers" ;;;
  Sql.create_table_if_not_exists "positions" ;;;
  ret PyNone.

Definition is_init (db : store) : bool :=
  let tables := Sql.select_required_tables db in
  match tables with
  | [] => false
  | _ :: _ =>
      let existing_tables := tables in
      forallb (fun n => existsb (String.eqb n) existing_tables) required_tables
  end.

Section Bcrypt.

(** [bcrypt.hashpw(password, salt)] *)
Variable hashpw : string -> string -> string.

(** [salt] is what [bcrypt.gensalt()] returned, [now] the clock. *)
Definition create_user (username password : string) (email : option string)
           (salt : string) (now : Z) : db_op pyval :=
  let encrypted_pw := hashpw password salt in
  returned <-
    try_except
      (Sql.insert_user username encrypted_pw email now ;;; ret None)
      IntegrityError
      (ret (Some (PyBool false))) ;;
  match returned with
  | Some v => ret v
  | None => ret (PyBool true)
  end.

End Bcrypt.

(** The balance column of the row: a float, or [None] for NULL. *)
Definition get_balance (username : string) : db_op (option float) :=
  rows <- Sql.select_balance username ;;
  balance <- subscript (fetchone rows) ;;
  ret balance.

Definition contains_user (username : string) : db_op bool :=
  rows <- Sql.select_one username ;;
  let user_exists :=
    match fetchone rows with
    | Some _ => true
    | None => false
    end in
  ret user_exists.

Definition deposit (username : string) (amount : number) : db_op pyval :=
  old_balance <- get_balance username ;;
  new_balance <- lift (py_add old_balance amount) ;;
  Sql.update_balance new_balance username ;;;
  ret (PyBool true).

Definition withdrawal (username : string) (amount : number) : db_op pyval :=
  old_balance <- get_balance username ;;
  difference <- lift (py_sub old_balance amount) ;;
  if (difference <? 0)%float then ret (PyBool false)
  else
    new_balance <- lift (py_sub old_balance amount) ;;
    Sql.update_balance new_balance username ;;;
    ret PyNone.

(** The parameters argument is [(symbol)], the string itself and not a
    one-element tuple: the statement's single placeholder is bound from
    the items of the string. *)
Definition delete_ticker (symbol : string) : db_op pyval :=
  let conn := _connect in
  Sql.on_table "tickers"
    (match str_items symbol with
     | [item] => Sql.delete_ticker conn item ;;; ret PyNone
     | _ => raise ProgrammingError
     end).

(** SELECT t.ticker_symbol, p.quantity FROM positions p JOIN tickers t
      ON pt.ticker_id = t.id WHERE pt.portfolio_id = ? *)
Definition positions_query : Sql.join_select :=
  {| Sql.result_columns :=
       [ {| Sql.qualifier := "t"; Sql.column := "ticker_symbol" |};
         {| Sql.qualifier := "p"; Sql.column := "quantity" |} ];
     Sql.from_table := "positions";
     Sql.from_alias := "p";
     Sql.join_table := "tickers";
     Sql.join_alias := "t";
     Sql.on_left := {| Sql.qualifier := "pt"; Sql.column := "ticker_id" |};
     Sql.on_right := {| Sql.qualifier := "t"; Sql.column := "id" |};
     Sql.where_column := {| Sql.qualifier := "pt"; Sql.column := "portfolio_id" |} |}.

Definition get_portfolio_positions (portfolio_id : Z)
  : db_op (list (list pyval)) :=
  tickers <- Sql.execute_join positions_query (PyInt portfolio_id) ;;
  ret tickers.

End Database.

(** ** class PositionsPage (AccountPages/Positions.py)

    [make_ui] without the widgets: what it computes for the cells of the
    positions table and of the totals table, before the cells are
    formatted ([f"${x:,.2f}"]). *)

Module PositionsPage.

Local Open Scope outcome_scope.

(** A value of the mapping the page iterates:
    [position["quantity"]], a number, and [position["cost_basis"]], a
    float. *)
Record position : Type := { quantity : number; cost_basis : float }.

(** The seven cells of a row of [positions_table]. *)
Record table_row : Type :=
  { tic : string;
    qt : number;
    buy_price : float;
    row_cost_basis : float;
    current_price : float;
    current_value : float;
    profit_loss : float }.

(** The three cells of [total_table]. *)
Record totals : Type :=
  { total_cost_basis : float;
    total_value : float;
    total_profit : float }.

Inductive ui : Type :=
| NoPositionsLabel
| Tables (positions_table : list table_row) (total_table : totals).

Section Page.

(** The two methods the page calls on [self.db]. *)
Variable get_all_positions : Z -> outcome (list (string * position)).
Variable get_ticker_price : string -> outcome float.

(** The loop [for row, (tic, quantity, cost_basis) in enumerate(position_data)]. *)
Fixpoint populate (position_data : list (string * number * float))
         (positions_table : list table_row) (acc : totals)
  : outcome (list table_row * totals) :=
  match position_data with
  | [] => Return (positions_table, acc)
  | (tic, quantity, cost_basis) :: rest =>
      avg_price <- py_truediv cost_basis quantity ;;
      cur_price <- get_ticker_price tic ;;
      cur_value <- py_mul quantity cur_price ;;
      value <- py_mul quantity cur_price ;;
      cost <- py_mul quantity avg_price ;;
      let cur_profit := (value - cost)%float in
      populate rest
        (positions_table ++
           [ {| tic := tic;
                qt := quantity;
                buy_price := avg_price;
                row_cost_basis := cost_basis;
                current_price := cur_price;
                current_value := cur_value;
                profit_loss := cur_profit |} ])
        {| total_cost_basis := (total_cost_basis acc + cost_basis)%float;
           total_value := (total_value acc + cur_value)%float;
           total_profit := (total_profit acc + cur_profit)%float |}
  end.

Definition make_ui (portfolio_id : Z) : outcome ui :=
  all_positions <- get_all_positions portfolio_id ;;
  match all_positions with
  | [] => Return NoPositionsLabel
  | _ :: _ =>
      let position_data :=
        map (fun kv => (fst kv, quantity (snd kv), cost_basis (snd kv)))
            all_positions in
      tables <- populate position_data []
                  {| total_cost_basis := 0; total_value := 0; total_profit := 0 |} ;;
      Return (Tables (fst tables) (snd tables))
  end.

End Page.

End PositionsPage.

(** ** A concrete store

    Two users, three tickers, one portfolio holding two lots of XYZ (bought
    at 50 and at 60) and one lot each of AAPL and F. *)

Definition example_store : store :=
  {| sqlite_master :=
       [ {| SqliteMaster.type := "table"; SqliteMaster.name := "users" |};
         {| SqliteMaster.type := "table"; SqliteMaster.name := "sqlite_sequence" |};
         {| SqliteMaster.type := "index"; SqliteMaster.name := "sqlite_autoindex_users_1" |};
         {| SqliteMaster.type := "table"; SqliteMaster.name := "portfolios" |};
         {| SqliteMaster.type := "table"; SqliteMaster.name := "tickers" |};
         {| SqliteMaster.type := "table"; SqliteMaster.name := "positions" |} ]%string;
     users_seq := 2;
     users :=
       [ {| Users.id := 1; Users.username := "alice"; Users.password := "$2b$12$a";
            Users.email := Some "alice@example.org"%string;
            Users.balance := Some 500%float; Users.creation_date := 0 |};
         {| Users.id := 2; Users.username := "bob"; Users.password := "$2b$12$b";
            Users.email := None;
            Users.balance := Some 50%float; Users.creation_date := 1 |} ]%string;
     portfolios :=
       [ {| Portfolios.id := 1; Portfolios.user_id := Some 1%Z;
            Portfolios.portfolio_name := "main"; Portfolios.created_at := 2 |} ]%string;
     tickers :=
       [ {| Tickers.id := 1; Tickers.ticker_symbol := "XYZ";
            Tickers.current_price := Some 60%float; Tickers.company_name := Some "XYZ Corp"%string;
            Tickers.updated_at := 3 |};
         {| Tickers.id := 2; Tickers.ticker_symbol := "AAPL";
            Tickers.current_price := Some 100%float; Tickers.company_name := Some "Apple"%string;
            Tickers.updated_at := 3 |};
         {| Tickers.id := 3; Tickers.ticker_symbol := "F";
            Tickers.current_price := Some 10%float; Tickers.company_name := Some "Ford"%string;
            Tickers.updated_at := 3 |} ]%string;
     positions :=
       [ {| Positions.portfolio_id := 1; Positions.ticker_id := 1;
            Positions.quantity := 10; Positions.purchase_date := 4;
            Positions.purchase_price := 50 |};
         {| Positions.portfolio_id := 1; Positions.ticker_id := 1;
            Positions.quantity := 5; Positions.purchase_date := 5;
            Positions.purchase_price := 60 |};
         {| Positions.portfolio_id := 1; Positions.ticker_id := 2;
            Positions.quantity := 3; Positions.purchase_date := 6;
            Positions.purchase_price := 100 |};
         {| Positions.portfolio_id := 1; Positions.ticker_id := 3;
            Positions.quantity := 2; Positions.purchase_date := 7;
            Positions.purchase_price := 10 |} ] |}.

(** A store whose catalog lacks the [positions] table. *)
Definition partial_store : store :=
  {| sqlite_master :=
       [ {| SqliteMaster.type := "table"; SqliteMaster.name := "users" |};
         {| SqliteMaster.type := "table"; SqliteMaster.name := "portfolios" |};
         {| SqliteMaster.type := "table"; SqliteMaster.name := "tickers" |} ]%string;
     users_seq := 0;
     users := [];
     portfolios := [];
     tickers := [];
     positions := [] |}.

(** [positions_query] with its undefined alias [pt] read as [p], the alias
    the FROM clause binds.  The source does not contain this statement; it
    is here to show what the SELECT list of the source asks for. *)
Definition positions_query_alias_p : Sql.join_select :=
  {| Sql.result_columns := Sql.result_columns Database.positions_query;
     Sql.from_table := "positions";
     Sql.from_alias := "p";
     Sql.join_table := "tickers";
     Sql.join_alias := "t";
     Sql.on_left := {| Sql.qualifier := "p"; Sql.column := "ticker_id" |};
     Sql.on_right := {| Sql.qualifier := "t"; Sql.column := "id" |};
     Sql.where_column := {| Sql.qualifier := "p"; Sql.column := "portfolio_id" |} |}.

(** A store with balances at which binary64 no longer resolves units. *)
Definition ledger_store : store :=
  {| sqlite_master := sqlite_master example_store;
     users_seq := 2;
     users :=
       [ {| Users.id := 1; Users.username := "dave"; Users.password := "$2b$12$d";
            Users.email := None;
            Users.balance := Some 1e16%float; Users.creation_date := 0 |};
         {| Users.id := 2; Users.username := "erin"; Users.password := "$2b$12$e";
            Users.email := None;
            Users.balance := Some 9007199254740992%float;
            Users.creation_date := 1 |} ]%string;
     portfolios := [];
     tickers := [];
     positions := [] |}.


Definition example_ticker_price (symbol : string) : outcome float :=
  if String.eqb symbol "XYZ" then Return 60%float
  else if String.eqb symbol "AAPL" then Return 100%float
  else Raise TypeError.



(** Whether a balance read back from the store is below zero; NULL is
    not. *)
Definition negative (x : option float) : bool :=
  match x with
  | Some f => (f <? 0)%float
  | None => false
  end.

(** What [UPDATE users SET balance = b WHERE username = u] may change in a
    row: the balance of the rows of [u], and nothing else. *)
Definition balance_update (u : string) (b : option float) (r r' : Users.row) : Prop :=
  Users.id r' = Users.id r /\
  Users.username r' = Users.username r /\
  Users.password r' = Users.password r /\
  Users.email r' = Users.email r /\
  Users.creation_date r' = Users.creation_date r /\
  Users.balance r' = (if String.eqb (Users.username r) u then b else Users.balance r).
(** ** Further statements of db.py *)

Module Stmt.

(** SELECT id, password FROM users WHERE username = ? *)
Definition select_id_password (username : string) : db_op (list (Z * string)) :=
  Sql.on_table "users" (fun db =>
    (Return (map (fun r => (Users.id r, Users.password r))
               (filter (fun r => String.eqb (Users.username r) username)
                       (users db))), db)).

(** DELETE FROM users WHERE username=?
    With foreign keys enforced, ON DELETE CASCADE removes the portfolios
    of a deleted user and with them the positions they hold. *)
Definition delete_user (conn : connection) (username : string) : db_op unit :=
  Sql.on_table "users" (fun db =>
    let hit := fun r => String.eqb (Users.username r) username in
    let gone := map Users.id (filter hit (users db)) in
    let owned := fun f =>
      match Portfolios.user_id f with
      | Some i => existsb (Z.eqb i) gone
      | None => false
      end in
    let closed := map Portfolios.id (filter owned (portfolios db)) in
    (Return tt,
     {| sqlite_master := sqlite_master db;
        users_seq := users_seq db;
        users := filter (fun r => negb (hit r)) (users db);
        portfolios :=
          if foreign_keys conn
          then filter (fun f => negb (owned f)) (portfolios db)
          else portfolios db;
        tickers := tickers db;
        positions :=
          if foreign_keys conn
          then filter (fun p => negb (existsb (Z.eqb (Positions.portfolio_id p)) closed))
                      (positions db)
          else positions db |})).

Definition with_tickers (ts : list Tickers.row) (db : store) : store :=
  {| sqlite_master := sqlite_master db;
     users_seq := users_seq db;
     users := users db;
     portfolios := portfolios db;
     tickers := ts;
     positions := positions db |}.

(** INSERT INTO tickers (ticker_symbol, company_name, current_price)
      VALUES (?, ?, ?)
    [ticker_symbol] is UNIQUE.  [rowid] is the id AUTOINCREMENT assigns and
    [now] is CURRENT_TIMESTAMP, both supplied by SQLite. *)
Definition insert_ticker (symbol name : string) (price : float) (rowid now : Z)
  : db_op unit :=
  Sql.on_table "tickers" (fun db =>
    if existsb (fun t => String.eqb (Tickers.ticker_symbol t) symbol) (tickers db)
    then (Raise IntegrityError, db)
    else
      (Return tt,
       with_tickers
         (tickers db ++ [ {| Tickers.id := rowid;
                             Tickers.ticker_symbol := symbol;
                             Tickers.current_price := bind_real price;
                             Tickers.company_name := Some name;
                             Tickers.updated_at := now |} ])
         db)).

(** SELECT ticker_symbol, current_price FROM tickers *)
Definition select_tickers : db_op (list (string * option float)) :=
  Sql.on_table "tickers" (fun db =>
    (Return (map (fun t => (Tickers.ticker_symbol t, Tickers.current_price t))
               (tickers db)), db)).

Definition set_price (price : float) (t : Tickers.row) : Tickers.row :=
  {| Tickers.id := Tickers.id t;
     Tickers.ticker_symbol := Tickers.ticker_symbol t;
     Tickers.current_price := bind_real price;
     Tickers.company_name := Tickers.company_name t;
     Tickers.updated_at := Tickers.updated_at t |}.

(** UPDATE tickers SET current_price=? WHERE ticker_symbol=? *)
Definition update_price (price : float) (symbol : string) : db_op unit :=
  Sql.on_table "tickers" (fun db =>
    (Return tt,
     with_tickers
       (map (fun t => if String.eqb (Tickers.ticker_symbol t) symbol
                      then set_price price t else t)
            (tickers db))
       db)).

(** INSERT INTO portfolios (user_id, portfolio_name) VALUES (?, ?) *)
Definition insert_portfolio (user_id : Z) (portfolio_name : string)
           (rowid now : Z) : db_op unit :=
  Sql.on_table "portfolios" (fun db =>
    (Return tt,
     {| sqlite_master := sqlite_master db;
        users_seq := users_seq db;
        users := users db;
        portfolios :=
          portfolios db ++ [ {| Portfolios.id := rowid;
                                Portfolios.user_id := Some user_id;
                                Portfolios.portfolio_name := portfolio_name;
                                Portfolios.created_at := now |} ];
        tickers := tickers db;
        positions := positions db |})).

(** [cursor.execute(sql, a1, ..., an)]: besides the statement the method
    takes at most one positional argument, the parameters.  A call with
    more raises TypeError before the statement is looked at. *)
Definition execute_arity (positional : nat) : db_op unit :=
  if Nat.leb positional 1 then ret tt else raise TypeError.

End Stmt.

(** ** class Database, the other methods *)

Module Account.

Local Open Scope db_scope.

Section Bcrypt.

(** [bcrypt.checkpw(password, hashed)] *)
Variable checkpw : string -> string -> bool.

Definition verify_user (username password : string) : db_op bool :=
  rows <- Stmt.select_id_password username ;;
  let user := fetchone rows in
  match user with
  | Some (_, stored) => if checkpw password stored then ret true else ret false
  | None => ret false
  end.

End Bcrypt.

Definition delete_user (username : string) : db_op pyval :=
  Stmt.delete_user Database._connect username ;;;
  ret PyNone.

End Account.

Module Ticker.

Local Open Scope db_scope.

Definition create_ticker (symbol name : string) (price : float) (rowid now : Z)
  : db_op pyval :=
  returned <-
    try_except
      (Stmt.insert_ticker symbol name price rowid now ;;; ret None)
      IntegrityError
      (ret (Some (PyBool false))) ;;
  match returned with
  | Some v => ret v
  | None => ret (PyBool true)
  end.

Definition get_all_tickers : db_op (list (string * option float)) :=
  all_stocks <- Stmt.select_tickers ;;
  ret all_stocks.

Section PriceSource.

(** [yf.Ticker(tic).history(period="1d")["Close"].iloc[-1]]: the value, or
    the exception the expression raised. *)
Variable close_last : string -> outcome float.

(** [yf.Ticker(symbol).history('1d')["Close"].iloc[0]] *)
Variable close_first : string -> outcome float.

(** [util.get_ticker_dict()]: the (symbol, name) items, in order. *)
Variable get_ticker_dict : list (string * string).

(** What SQLite supplies when an INSERT runs on a store: the id
    AUTOINCREMENT assigns and CURRENT_TIMESTAMP. *)
Variable rowid : store -> Z.
Variable now : store -> Z.

(** The loop of [_add_all_tickers] from index [i] of the enumeration. *)
Fixpoint add_tickers_from (i : nat) (items : list (string * string))
         (debugLimit : option Z) : db_op pyval :=
  match items with
  | [] => ret PyNone
  | (tic, name) :: rest =>
      price <- lift (close_last tic) ;;
      (fun db => create_ticker tic name price (rowid db) (now db) db) ;;;
      if match debugLimit with
         | Some limit => Z.ltb limit (Z.of_nat i)
         | None => false
         end
      then ret PyNone
      else add_tickers_from (S i) rest debugLimit
  end.

Definition _add_all_tickers (debugLimit : option Z) : db_op pyval :=
  let ticker_dict := get_ticker_dict in
  add_tickers_from 0 ticker_dict debugLimit.

Definition update_ticker (symbol : string) : db_op pyval :=
  current_price <- lift (close_first symbol) ;;
  Stmt.update_price current_price symbol ;;;
  ret PyNone.

(** The loop of [update_all_tickers]. *)
Fixpoint update_each (items : list (string * string)) : db_op pyval :=
  match items with
  | [] => ret PyNone
  | (tic, _) :: rest => update_ticker tic ;;; update_each rest
  end.

Definition update_all_tickers : db_op pyval :=
  let ticker_dict := get_ticker_dict in
  update_each ticker_dict.

(** [Database(db_name, update_tickers)] on the file [db_name]. *)
Definition __init__ (update_tickers : bool) : db_op pyval :=
  fun db =>
    if negb (Database.is_init db) then
      (Database.create_schema ;;; _add_all_tickers (Some 50%Z)) db
    else if update_tickers then update_all_tickers db
    else (Return PyNone, db).

End PriceSource.

End Ticker.

Module Portfolio.

Local Open Scope db_scope.

(** [cursor.execute("INSERT ...", user_id, portfolio_name)]: the two values
    are passed as two positional arguments, not as one tuple. *)
Definition create_portfolio (user_id : Z) (portfolio_name : string)
           (rowid now : Z) : db_op pyval :=
  Stmt.execute_arity 2 ;;;
  Stmt.insert_portfolio user_id portfolio_name rowid now ;;;
  ret PyNone.

(** [cursor.execute("DELETE FROM portfolios WHERE user_id=?,
    portfolio_name=?", user_id, portfolio_name)]: two positional
    arguments again; the statement, with a comma where AND belongs, would
    not prepare. *)
Definition delete_portfolio (user_id : Z) (portfolio_name : string)
  : db_op pyval :=
  Stmt.execute_arity 2 ;;;
  (raise OperationalError : db_op unit) ;;;
  ret PyNone.

End Portfolio.

(** What the ticker methods leave alone: the catalog and the three other
    tables. *)
Definition tickers_only (db db' : store) : Prop :=
  sqlite_master db' = sqlite_master db /\
  users_seq db' = users_seq db /\
  users db' = users db /\
  portfolios db' = portfolios db /\
  positions db' = positions db.


(** A catalog entry that stands in the way of one of the four CREATE
    TABLE statements: it has the name of a required table, in whatever
    case, without being that table. *)
Definition clashing (e : SqliteMaster.row) : bool :=
  existsb (fun n => same_name (SqliteMaster.name e) n
                    && negb (String.eqb (SqliteMaster.type e) "table"
                             && String.eqb (SqliteMaster.name e) n))
          Database.required_tables.



Definition position_datum (kv : string * PositionsPage.position)
  : string * number * float :=
  (fst kv, PositionsPage.quantity (snd kv), PositionsPage.cost_basis (snd kv)).


(** What a statement that only creates tables leaves in place: the tables
    the catalog has, and their rows. *)
Definition keeps_tables (db db' : store) : Prop :=
  (forall n, Sql.has_table n db = true -> Sql.has_table n db' = true) /\
  (Sql.has_table "users" db = true -> users db' = users db) /\
  (Sql.has_table "portfolios" db = true -> portfolios db' = portfolios db) /\
  (Sql.has_table "tickers" db = true -> tickers db' = tickers db) /\
  (Sql.has_table "positions" db = true -> positions db' = positions db).

(** * Properties *)

Unset Implicit Arguments.

(** ** Rows of a user, before and after an UPDATE of the balance *)

Definition user_rows (u : string) (l : list Users.row) : list Users.row :=
  filter (fun r => String.eqb (Users.username r) u) l.

Definition updated (v : string) (b : option float) (l : list Users.row)
  : list Users.row :=
  map (fun r => if String.eqb (Users.username r) v then Sql.set_balance b r else r) l.

Lemma user_rows_updated (l : list Users.row) (u v : string) (b : option float) :
  user_rows u (updated v b l) =
  if String.eqb u v then map (Sql.set_balance b) (user_rows u l)
  else user_rows u l.
Proof.
  induction l as [|r l IH]; simpl.
  - now destruct (String.eqb u v).
  - destruct (String.eqb_spec (Users.username r) v) as [Hv|Hv]; simpl;
      destruct (String.eqb_spec (Users.username r) u) as [Hu|Hu]; simpl;
      rewrite IH; destruct (String.eqb_spec u v) as [Huv|Huv];
      simpl; try reflexivity; congruence.
Qed.

Lemma updated_rows (l : list Users.row) (v : string) (b : option float) :
  Forall2 (balance_update v b) l (updated v b l).
Proof.
  induction l as [|r l IH]; simpl; constructor; trivial.
  unfold balance_update.
  destruct (String.eqb (Users.username r) v); simpl; repeat split; reflexivity.
Qed.

Lemma has_table_with_users (n : string) (us : list Users.row) (db : store) :
  Sql.has_table n (Sql.with_users us db) = Sql.has_table n db.
Proof. reflexivity. Qed.

(** [get_balance], statement by statement. *)
Lemma get_balance_eq (u : string) (db : store) :
  Database.get_balance u db =
  if Sql.has_table "users" db then
    match user_rows u (users db) with
    | [] => (Raise TypeError, db)
    | r :: _ => (Return (Users.balance r), db)
    end
  else (Raise OperationalError, db).
Proof.
  unfold Database.get_balance, bind, Sql.select_balance, Sql.on_table, user_rows.
  destruct (Sql.has_table "users" db); trivial.
  now destruct (filter _ (users db)).
Qed.

Lemma get_balance_returns (u : string) (db db' : store) (b : option float) :
  Database.get_balance u db = (Return b, db') ->
  Sql.has_table "users" db = true /\
  exists r rs, user_rows u (users db) = r :: rs /\ Users.balance r = b.
Proof.
  rewrite get_balance_eq.
  destruct (Sql.has_table "users" db); [|discriminate].
  destruct (user_rows u (users db)) as [|r rs]; [discriminate|].
  intro H. injection H as Hb _. split; trivial. now exists r, rs.
Qed.

Lemma update_balance_eq (b : float) (u : string) (db : store) :
  Sql.has_table "users" db = true ->
  Sql.update_balance b u db =
  (Return tt, Sql.with_users (updated u (bind_real b) (users db)) db).
Proof.
  intro H. unfold Sql.update_balance, Sql.on_table. now rewrite H.
Qed.

(** Reading the balance of [u] after the balance of [v] was set to [b]. *)
Lemma get_balance_updated (u v : string) (b : option float) (db : store) :
  Sql.has_table "users" db = true ->
  user_rows u (users db) <> [] ->
  let db' := Sql.with_users (updated v b (users db)) db in
  Database.get_balance u db' =
  if String.eqb u v then (Return b, db') else
    (fst (Database.get_balance u db), db').
Proof.
  intros Ht Hne db'.
  rewrite !get_balance_eq. unfold db' at 1 2.
  rewrite has_table_with_users, Ht. simpl users.
  rewrite user_rows_updated.
  destruct (user_rows u (users db)) as [|r rs]; [congruence|].
  now destruct (String.eqb u v).
Qed.

Lemma get_balance_fst (u : string) (db : store) (b : option float) :
  fst (Database.get_balance u db) = Return b ->
  Database.get_balance u db = (Return b, db) /\
  Sql.has_table "users" db = true /\
  user_rows u (users db) <> [].
Proof.
  intro H.
  assert (E : Database.get_balance u db = (Return b, db)).
  { revert H. rewrite get_balance_eq.
    destruct (Sql.has_table "users" db); [|discriminate].
    destruct (user_rows u (users db)); simpl; congruence. }
  split; trivial.
  destruct (get_balance_returns _ _ _ _ E) as (Ht & r & rs & Hr & _).
  split; trivial. congruence.
Qed.

(** [withdrawal] and [deposit] once the balance has been read. *)
Lemma withdrawal_eq (u : string) (a : number) (x : option float) (db : store) :
  fst (Database.get_balance u db) = Return x ->
  Database.withdrawal u a db =
  match py_sub x a with
  | Raise e => (Raise e, db)
  | Return d =>
      if (d <? 0)%float then (Return (PyBool false), db)
      else (Return PyNone, Sql.with_users (updated u (bind_real d) (users db)) db)
  end.
Proof.
  intro H. destruct (get_balance_fst _ _ _ H) as (E & Ht & _).
  unfold Database.withdrawal, bind at 1. rewrite E.
  unfold bind at 1, lift. destruct (py_sub x a) as [d|e]; trivial.
  destruct (d <? 0)%float; trivial.
  unfold bind. now rewrite update_balance_eq.
Qed.

Lemma deposit_eq (u : string) (a : number) (x : option float) (db : store) :
  fst (Database.get_balance u db) = Return x ->
  Database.deposit u a db =
  match py_add x a with
  | Raise e => (Raise e, db)
  | Return s =>
      (Return (PyBool true),
       Sql.with_users (updated u (bind_real s) (users db)) db)
  end.
Proof.
  intro H. destruct (get_balance_fst _ _ _ H) as (E & Ht & _).
  unfold Database.deposit, bind at 1. rewrite E.
  unfold bind at 1, lift. destruct (py_add x a) as [s|e]; trivial.
  unfold bind. now rewrite update_balance_eq.
Qed.

(** A method whose first statement, the read of the balance, raises. *)
Lemma withdrawal_raise (u : string) (a : number) (db : store) (e : exn) :
  fst (Database.get_balance u db) = Raise e ->
  snd (Database.withdrawal u a db) = db.
Proof.
  unfold Database.withdrawal, bind. rewrite get_balance_eq.
  destruct (Sql.has_table "users" db); [|reflexivity].
  now destruct (user_rows u (users db)).
Qed.

Lemma deposit_raise (u : string) (a : number) (db : store) (e : exn) :
  fst (Database.get_balance u db) = Raise e ->
  snd (Database.deposit u a db) = db.
Proof.
  unfold Database.deposit, bind. rewrite get_balance_eq.
  destruct (Sql.has_table "users" db); [|reflexivity].
  now destruct (user_rows u (users db)).
Qed.

Lemma negative_bind_real (d : float) :
  (d <? 0)%float = false -> negative (bind_real d) = false.
Proof.
  intro H. unfold bind_real. now destruct (is_nan d).
Qed.

(** ** Account operations *)




(** C6, at a concrete input.  On a balance of 1e16 a deposit of 1.0 is
    accepted and the balance read afterwards is 1e16: it has not grown by
    the amount. *)
Lemma deposit_absorbed :
  fst (Database.get_balance "dave" ledger_store) = Return (Some 1e16%float) /\
  (0 <=? 1)%float = true /\
  fst (Database.deposit "dave" (Float 1) ledger_store) = Return (PyBool true) /\
  fst (Database.get_balance "dave"
         (snd (Database.deposit "dave" (Float 1) ledger_store)))
  = Return (Some 1e16%float) /\
  (1e16 + 1 =? 1e16)%float = true.
Proof. repeat split. Qed.

(** C6, amended.  For an existing user [u] whose balance is the float [b]
    and an amount [a], let [s] be the sum [b + a] as Python computes it
    (the amount converted to a float if it is an int, the result rounded
    to the nearest float).  [deposit u a] returns [True]; afterwards the
    balance of [u] is [s] (NULL if [s] is NaN), every other column of
    every row of [users] is what it was, and the catalog and the other
    three tables are untouched. *)
Theorem deposit_stores_rounded_sum
        (db : store) (u : string) (b : float) (a : number) (s : float) :
  fst (Database.get_balance u db) = Return (Some b) ->
  py_add (Some b) a = Return s ->
  let db' := snd (Database.deposit u a db) in
  fst (Database.deposit u a db) = Return (PyBool true) /\
  fst (Database.get_balance u db') = Return (bind_real s) /\
  Forall2 (balance_update u (bind_real s)) (users db) (users db') /\
  sqlite_master db' = sqlite_master db /\
  portfolios db' = portfolios db /\
  tickers db' = tickers db /\
  positions db' = positions db.
Proof.
  intros H Hs db'. subst db'.
  destruct (get_balance_fst _ _ _ H) as (_ & Ht & Hne).
  rewrite (deposit_eq u a (Some b) db H), Hs. simpl.
  repeat split.
  - rewrite (get_balance_updated u u (bind_real s) db Ht Hne).
    now rewrite String.eqb_refl.
  - apply updated_rows.
Qed.

Lemma deposit_stores_rounded_sum_witness :
  fst (Database.get_balance "alice"
         (snd (Database.deposit "alice" (Int 1000) example_store)))
  = Return (bind_real 1500%float).
Proof.
  apply (deposit_stores_rounded_sum example_store "alice" 500%float (Int 1000)
           1500%float).
  - reflexivity.
  - reflexivity.
Defined.

(** The balance of [u] after [withdrawal v a], whoever [v] is. *)
Lemma balance_after_withdrawal (db : store) (u v : string) (x : option float)
      (a : number) :
  fst (Database.get_balance u db) = Return x ->
  let db' := snd (Database.withdrawal v a db) in
  fst (Database.get_balance u db') = Return x \/
  (u = v /\ exists d, py_sub x a = Return d /\ (d <? 0)%float = false /\
                      fst (Database.get_balance u db') = Return (bind_real d)).
Proof.
  intros H db'. subst db'.
  destruct (get_balance_fst _ _ _ H) as (_ & Ht & Hne).
  destruct (fst (Database.get_balance v db)) as [xv|e] eqn:Hv.
  - rewrite (withdrawal_eq v a xv db Hv).
    destruct (py_sub xv a) as [d|e] eqn:Hd; [|now left].
    destruct (d <? 0)%float eqn:E; simpl; [now left|].
    rewrite (get_balance_updated u v (bind_real d) db Ht Hne).
    destruct (String.eqb_spec u v) as [->|N]; simpl; [right|now left].
    assert (xv = x) by congruence. subst xv.
    split; trivial. now exists d.
  - rewrite (withdrawal_raise v a db e Hv). now left.
Qed.

(** The balance of [u] after [deposit v a], whoever [v] is. *)
Lemma balance_after_deposit (db : store) (u v : string) (x : option float)
      (a : number) :
  fst (Database.get_balance u db) = Return x ->
  let db' := snd (Database.deposit v a db) in
  fst (Database.get_balance u db') =
  Return (if String.eqb u v
          then match py_add x a with Return s => bind_real s | Raise _ => x end
          else x).
Proof.
  intros H db'. subst db'.
  destruct (get_balance_fst _ _ _ H) as (_ & Ht & Hne).
  destruct (fst (Database.get_balance v db)) as [xv|e] eqn:Hv.
  - rewrite (deposit_eq v a xv db Hv).
    destruct (py_add xv a) as [s|e] eqn:Hs; simpl.
    + rewrite (get_balance_updated u v (bind_real s) db Ht Hne).
      destruct (String.eqb_spec u v) as [->|N]; simpl; [|assumption].
      assert (xv = x) by congruence. subst xv. now rewrite Hs.
    + destruct (String.eqb_spec u v) as [->|N]; [|assumption].
      assert (xv = x) by congruence. subst xv. now rewrite Hs.
  - destruct (String.eqb_spec u v) as [->|N]; [congruence|].
    now rewrite (deposit_raise v a db e Hv).
Qed.

(** C3, at a concrete input: bob holds 50, a deposit of -100 is accepted
    and leaves him at -50.  [deposit] has no test on the amount or on the
    resulting balance. *)
Lemma deposit_negative_amount_overdraws :
  fst (Database.get_balance "bob" example_store) = Return (Some 50%float) /\
  negative (Some 50%float) = false /\
  fst (Database.deposit "bob" (Int (-100)) example_store) = Return (PyBool true) /\
  fst (Database.get_balance "bob"
         (snd (Database.deposit "bob" (Int (-100)) example_store)))
  = Return (Some (-50)%float) /\
  negative (Some (-50)%float) = true.
Proof. repeat split. Qed.

(** C3, amended.  For a user [u] whose balance is not negative:
    after [withdrawal v a], for any user [v] and any amount [a] (a NaN
    included, whose difference is stored as NULL), the balance of [u] is
    still readable and not negative; after [deposit v a] it is still
    readable, and it is negative exactly when the deposit was on [u]
    itself and the sum [b + a] that Python computed and the store kept is
    negative.  [deposit] tests neither the amount nor the sum. *)
Theorem nonneg_balance_preserved (db : store) (u v : string) (x : option float)
        (a : number) :
  fst (Database.get_balance u db) = Return x ->
  negative x = false ->
  (exists x', fst (Database.get_balance u (snd (Database.withdrawal v a db)))
              = Return x' /\ negative x' = false) /\
  (exists x', fst (Database.get_balance u (snd (Database.deposit v a db)))
              = Return x' /\
              (negative x' = true <->
               u = v /\ exists s, py_add x a = Return s /\
                                  negative (bind_real s) = true)).
Proof.
  intros H Hx. split.
  - destruct (balance_after_withdrawal db u v x a H) as [E|(_ & d & _ & G & E)].
    + now exists x.
    + exists (bind_real d). split; trivial. now apply negative_bind_real.
  - rewrite (balance_after_deposit db u v x a H).
    eexists. split; [reflexivity|].
    destruct (String.eqb_spec u v) as [->|N].
    + destruct (py_add x a) as [s|e].
      * split; [intro G; split; trivial; now exists s|].
        intros (_ & s' & Hs & G). congruence.
      * split; [congruence|]. intros (_ & s' & Hs & _). discriminate.
    + split; [congruence|]. intros (E & _). contradiction.
Qed.

Lemma nonneg_balance_preserved_witness :
  exists x', fst (Database.get_balance "bob"
                    (snd (Database.withdrawal "bob" (Float 80) example_store)))
             = Return x' /\ negative x' = false.
Proof.
  apply (nonneg_balance_preserved example_store "bob" "bob" (Some 50%float)
           (Float 80)).
  - reflexivity.
  - reflexivity.
Defined.

(** C10. [withdrawal] returns [False] when the funds do not suffice and
    [None] when it has updated the balance; both are falsy, so
    [if db.withdrawal(u, a):] takes the same branch in the two cases.
    Here [d] is the difference [old_balance - amount] that the guard
    [old_balance - amount < 0] tests. *)
Theorem withdrawal_result_falsy (db : store) (u : string) (b : float)
        (a : number) (d : float) :
  fst (Database.get_balance u db) = Return (Some b) ->
  py_sub (Some b) a = Return d ->
  ((d <? 0)%float = true ->
   fst (Database.withdrawal u a db) = Return (PyBool false)) /\
  ((d <? 0)%float = false -> fst (Database.withdrawal u a db) = Return PyNone) /\
  (exists v, fst (Database.withdrawal u a db) = Return v /\ truthy v = false).
Proof.
  intros H Hd. rewrite (withdrawal_eq u a (Some b) db H), Hd.
  destruct (d <? 0)%float eqn:E; simpl.
  - repeat split; intros; try discriminate. now exists (PyBool false).
  - repeat split; intros; try discriminate. now exists PyNone.
Qed.

Lemma withdrawal_result_falsy_witness :
  fst (Database.withdrawal "alice" (Float 2000) example_store)
  = Return (PyBool false) /\
  fst (Database.withdrawal "alice" (Float 200) example_store) = Return PyNone.
Proof.
  split.
  - apply (withdrawal_result_falsy example_store "alice" 500%float (Float 2000)
             (500 - 2000)%float).
    + reflexivity.
    + reflexivity.
    + reflexivity.
  - apply (withdrawal_result_falsy example_store "alice" 500%float (Float 200)
             (500 - 200)%float).
    + reflexivity.
    + reflexivity.
    + reflexivity.
Defined.

Lemma filter_cons_existsb {A} (f : A -> bool) (l : list A) (x : A) (xs : list A) :
  filter f l = x :: xs -> existsb f l = true.
Proof.
  intro H. apply existsb_exists. exists x.
  apply filter_In. rewrite H. now left.
Qed.

(** C5. When [username] is already the name of a user, [create_user]
    returns [False] (the IntegrityError of the INSERT is caught, nothing is
    raised to the caller) and the store, the existing row included, is what
    it was; this holds for every password, email, salt and hash function. *)
Theorem create_user_existing_username
        (hashpw : string -> string -> string) (db : store)
        (username password : string) (email : option string)
        (salt : string) (now : Z) :
  fst (Database.contains_user username db) = Return true ->
  Database.create_user hashpw username password email salt now db
  = (Return (PyBool false), db).
Proof.
  unfold Database.contains_user, Database.create_user, try_except, bind,
    Sql.select_one, Sql.insert_user, Sql.on_table.
  destruct (Sql.has_table "users" db); [|discriminate].
  destruct (filter _ (users db)) as [|r rs] eqn:F; [discriminate|].
  intros _. now rewrite (filter_cons_existsb _ _ _ _ F).
Qed.

Lemma create_user_existing_username_witness :
  Database.create_user (fun password salt => append salt password)
    "alice" "hunter2" None "$2b$12$s" 9 example_store
  = (Return (PyBool false), example_store).
Proof.
  apply create_user_existing_username. reflexivity.
Defined.

(** C9. For a username that no row of [users] carries ([contains_user]
    answers [False]), [get_balance] raises the TypeError of subscripting
    the [None] that [fetchone] returned; it returns no value, and no
    not-found result. *)
Theorem get_balance_unknown_user_raises (db : store) (username : string) :
  fst (Database.contains_user username db) = Return false ->
  Database.get_balance username db = (Raise TypeError, db).
Proof.
  rewrite get_balance_eq.
  unfold Database.contains_user, bind, Sql.select_one, Sql.on_table, user_rows.
  destruct (Sql.has_table "users" db); [|discriminate].
  now destruct (filter _ (users db)).
Qed.

Lemma get_balance_unknown_user_raises_witness :
  Database.get_balance "carol" example_store = (Raise TypeError, example_store).
Proof.
  apply get_balance_unknown_user_raises. reflexivity.
Defined.

(** ** Schema *)

Lemma is_init_forallb (db : store) :
  Database.is_init db =
  forallb (fun n => existsb (String.eqb n) (Sql.select_required_tables db))
          Database.required_tables.
Proof.
  unfold Database.is_init.
  now destruct (Sql.select_required_tables db).
Qed.

Lemma selected_iff_table (db : store) (n : string) :
  In n Database.required_tables ->
  (existsb (String.eqb n) (Sql.select_required_tables db) = true <->
   In {| SqliteMaster.type := "table"; SqliteMaster.name := n |} (sqlite_master db)).
Proof.
  intro Hn. unfold Sql.select_required_tables.
  rewrite existsb_exists. split.
  - intros (m & Hm & E). apply String.eqb_eq in E. subst m.
    apply in_map_iff in Hm. destruct Hm as ([t m] & Hname & Hin).
    apply filter_In in Hin. destruct Hin as (Hin & Hf).
    apply andb_true_iff in Hf. destruct Hf as (Ht & _).
    apply String.eqb_eq in Ht. simpl in *. now subst.
  - intro Hin. exists n. split; [|apply String.eqb_refl].
    apply in_map_iff.
    exists {| SqliteMaster.type := "table"; SqliteMaster.name := n |}.
    split; trivial. apply filter_In. split; trivial.
    apply andb_true_iff. split; [apply String.eqb_refl|].
    apply existsb_exists. exists n. split; trivial. apply String.eqb_refl.
Qed.

Lemma master_row_eq_dec (a b : SqliteMaster.row) : {a = b} + {a <> b}.
Proof. decide equality; apply string_dec. Qed.

(** C7. [is_init] answers [True] exactly when the catalog has a table
    named [users], one named [portfolios], one named [tickers] and one
    named [positions]; with any of the four missing it answers [False]. *)
Theorem is_init_iff_all_four_tables (db : store) :
  (Database.is_init db = true <->
   Forall (fun n => In {| SqliteMaster.type := "table"; SqliteMaster.name := n |}
                       (sqlite_master db))
          ["users"; "portfolios"; "tickers"; "positions"]%string) /\
  (Database.is_init db = false <->
   Exists (fun n => ~ In {| SqliteMaster.type := "table"; SqliteMaster.name := n |}
                         (sqlite_master db))
          ["users"; "portfolios"; "tickers"; "positions"]%string).
Proof.
  assert (T : Database.is_init db = true <->
              Forall (fun n => In {| SqliteMaster.type := "table";
                                     SqliteMaster.name := n |} (sqlite_master db))
                     Database.required_tables).
  { rewrite is_init_forallb, forallb_forall, Forall_forall.
    split; intros H n Hn; apply (selected_iff_table db n Hn); auto. }
  split; [exact T|].
  rewrite <- not_true_iff_false, T. split.
  - intro N. apply neg_Forall_Exists_neg in N; trivial.
    intro n. destruct (in_dec master_row_eq_dec
      {| SqliteMaster.type := "table"; SqliteMaster.name := n |}
      (sqlite_master db)); [now left|now right].
  - intros E F. apply Exists_exists in E. destruct E as (n & Hn & Hnot).
    rewrite Forall_forall in F. exact (Hnot (F n Hn)).
Qed.

(** A catalog with three of the four tables is not initialised;
    [create_schema] adds the missing one. *)
Lemma create_schema_partial_store :
  Database.is_init partial_store = false /\
  Database.is_init (snd (Database.create_schema partial_store)) = true /\
  Database.is_init example_store = true.
Proof. repeat split. Qed.

(** ** Tickers and positions *)

(** The alias [pt] of the ON and WHERE clauses is bound by neither FROM
    ([positions p]) nor JOIN ([tickers t]). *)
Lemma positions_query_unresolved :
  forallb (Sql.resolves Database.positions_query)
          (Sql.column_refs Database.positions_query) = false.
Proof. reflexivity. Qed.

(** C1. On every store and for every portfolio id,
    [get_portfolio_positions] raises the OperationalError of a statement
    that does not prepare and returns no rows: neither a mapping nor an
    aggregate comes out of the position query. *)
Theorem get_portfolio_positions_raises (db : store) (portfolio_id : Z) :
  Database.get_portfolio_positions portfolio_id db = (Raise OperationalError, db).
Proof.
  unfold Database.get_portfolio_positions, bind, Sql.execute_join.
  rewrite positions_query_unresolved.
  destruct (Sql.table_rows (Sql.from_table Database.positions_query) db);
    destruct (Sql.table_rows (Sql.join_table Database.positions_query) db);
    reflexivity.
Qed.

(** What the SELECT list of the statement asks for, were [pt] the alias
    [p]: one (symbol, quantity) pair per lot.  The two lots of XYZ stay
    two rows, and no cost basis is selected. *)
Lemma positions_query_alias_p_rows :
  Sql.execute_join positions_query_alias_p (PyInt 1) example_store
  = (Return [ [PyStr "XYZ"; PyInt 10]; [PyStr "XYZ"; PyInt 5];
              [PyStr "AAPL"; PyInt 3]; [PyStr "F"; PyInt 2] ],
     example_store).
Proof. reflexivity. Qed.

Lemma str_items_length (s : string) : length (str_items s) = String.length s.
Proof.
  unfold str_items. rewrite length_map.
  induction s as [|c s IH]; simpl; congruence.
Qed.

(** X21.  A symbol that is not exactly one character long supplies as many
    bindings as it has characters to a statement that uses one. *)
Lemma delete_ticker_bindings (db : store) (symbol : string) :
  Sql.has_table "tickers" db = true ->
  String.length symbol <> 1%nat ->
  Database.delete_ticker symbol db = (Raise ProgrammingError, db).
Proof.
  intros Ht Hlen. unfold Database.delete_ticker, Sql.on_table. rewrite Ht.
  rewrite <- str_items_length in Hlen.
  destruct (str_items symbol) as [|i [|j l]]; simpl in Hlen; trivial.
  congruence.
Qed.

(** No call of [delete_ticker] removes a row of [positions]. *)
Lemma delete_ticker_keeps_positions (db : store) (symbol : string) :
  positions (snd (Database.delete_ticker symbol db)) = positions db.
Proof.
  unfold Database.delete_ticker, Sql.delete_ticker, bind, Sql.on_table.
  destruct (Sql.has_table "tickers" db) eqn:Ht; trivial.
  destruct (str_items symbol) as [|i [|j l]]; trivial.
  now rewrite Ht.
Qed.

(** C8, at concrete inputs.  [delete_ticker "AAPL"] raises
    ProgrammingError and removes nothing.  [delete_ticker "F"] removes the
    ticker row of F (id 3) and leaves the position that references it. *)
Theorem delete_ticker_example :
  Database.delete_ticker "AAPL" example_store
  = (Raise ProgrammingError, example_store) /\
  let db' := snd (Database.delete_ticker "F" example_store) in
  fst (Database.delete_ticker "F" example_store) = Return PyNone /\
  map Tickers.ticker_symbol (tickers db') = ["XYZ"; "AAPL"]%string /\
  positions db' = positions example_store /\
  existsb (fun p => Z.eqb (Positions.ticker_id p) 3) (positions db') = true.
Proof. repeat split. Qed.

(** ** Valuation *)





(** * Further properties of the account operations *)

Lemma contains_user_eq (u : string) (db : store) :
  Database.contains_user u db =
  if Sql.has_table "users" db then
    (Return (match user_rows u (users db) with [] => false | _ :: _ => true end), db)
  else (Raise OperationalError, db).
Proof.
  unfold Database.contains_user, bind, Sql.select_one, Sql.on_table, user_rows.
  destruct (Sql.has_table "users" db); trivial.
  now destruct (filter _ (users db)).
Qed.

(** X1.  [get_balance] returns a balance for exactly the usernames for which
    [contains_user] answers [True]. *)
Theorem get_balance_returns_iff_contains_user (db : store) (u : string) :
  (exists b, fst (Database.get_balance u db) = Return b) <->
  fst (Database.contains_user u db) = Return true.
Proof.
  rewrite get_balance_eq, contains_user_eq.
  destruct (Sql.has_table "users" db); simpl.
  - destruct (user_rows u (users db)) as [|r rs]; simpl.
    + split; [intros (b & H)|intro H]; discriminate.
    + split; trivial. intros _. now exists (Users.balance r).
  - split; [intros (b & H)|intro H]; discriminate.
Qed.

(** X2.  On a username without a row both [deposit] and [withdrawal] raise the
    TypeError of [get_balance] and write nothing. *)
Theorem deposit_withdrawal_unknown_user (db : store) (u : string) (a : number) :
  fst (Database.contains_user u db) = Return false ->
  Database.deposit u a db = (Raise TypeError, db) /\
  Database.withdrawal u a db = (Raise TypeError, db).
Proof.
  rewrite contains_user_eq.
  unfold Database.deposit, Database.withdrawal, bind. rewrite get_balance_eq.
  destruct (Sql.has_table "users" db); [|discriminate].
  destruct (user_rows u (users db)); [split; reflexivity|discriminate].
Qed.

Lemma deposit_withdrawal_unknown_user_witness :
  Database.deposit "carol" (Float 10) example_store
  = (Raise TypeError, example_store) /\
  Database.withdrawal "carol" (Float 10) example_store
  = (Raise TypeError, example_store).
Proof.
  apply (deposit_withdrawal_unknown_user example_store "carol" (Float 10)).
  reflexivity.
Defined.

(** X4.  Neither [deposit] nor [withdrawal] on a user changes the balance of a
    user with another name. *)
Theorem other_balance_untouched (db : store) (u v : string) (b : option float)
        (a : number) :
  u <> v ->
  fst (Database.get_balance u db) = Return b ->
  fst (Database.get_balance u (snd (Database.deposit v a db))) = Return b /\
  fst (Database.get_balance u (snd (Database.withdrawal v a db))) = Return b.
Proof.
  intros N H. split.
  - rewrite (balance_after_deposit db u v b a H).
    now destruct (String.eqb_spec u v).
  - destruct (balance_after_withdrawal db u v b a H) as [E|(E & _)];
      [exact E|contradiction].
Qed.

Lemma other_balance_untouched_witness :
  fst (Database.get_balance "alice"
         (snd (Database.deposit "bob" (Float 7) example_store)))
  = Return (Some 500%float) /\
  fst (Database.get_balance "alice"
         (snd (Database.withdrawal "bob" (Float 7) example_store)))
  = Return (Some 500%float).
Proof.
  apply (other_balance_untouched example_store "alice" "bob" (Some 500%float)
           (Float 7)).
  - discriminate.
  - reflexivity.
Defined.

Lemma existsb_user_rows (u : string) (l : list Users.row) :
  existsb (fun r => String.eqb (Users.username r) u) l =
  match user_rows u l with [] => false | _ :: _ => true end.
Proof.
  unfold user_rows. induction l as [|r l IH]; simpl; trivial.
  now destruct (String.eqb (Users.username r) u).
Qed.

Lemma user_rows_app (u : string) (l l' : list Users.row) :
  user_rows u (l ++ l') = user_rows u l ++ user_rows u l'.
Proof. apply filter_app. Qed.

Lemma user_rows_nil_filter (u : string) (l : list Users.row) :
  user_rows u l = [] ->
  filter (fun r => negb (String.eqb (Users.username r) u)) l = l.
Proof.
  unfold user_rows. induction l as [|r l IH]; simpl; trivial.
  destruct (String.eqb (Users.username r) u); simpl; [discriminate|].
  intro H. now rewrite IH.
Qed.

(** [create_user], statement by statement. *)
Lemma create_user_eq (hashpw : string -> string -> string) (db : store)
      (u pw : string) (email : option string) (salt : string) (now : Z) :
  Database.create_user hashpw u pw email salt now db =
  if Sql.has_table "users" db then
    match user_rows u (users db) with
    | _ :: _ => (Return (PyBool false), db)
    | [] => (Return (PyBool true),
             snd (Sql.insert_user u (hashpw pw salt) email now db))
    end
  else (Raise OperationalError, db).
Proof.
  unfold Database.create_user, try_except, bind, Sql.insert_user, Sql.on_table.
  destruct (Sql.has_table "users" db); trivial.
  rewrite existsb_user_rows.
  now destruct (user_rows u (users db)).
Qed.

Lemma users_after_insert (db : store) (u h : string) (email : option string)
      (now : Z) :
  Sql.has_table "users" db = true ->
  user_rows u (users db) = [] ->
  let db' := snd (Sql.insert_user u h email now db) in
  Sql.has_table "users" db' = true /\
  exists r, users db' = users db ++ [r] /\
            Users.username r = u /\ Users.password r = h /\
            Users.email r = email /\ Users.balance r = Some 0%float.
Proof.
  intros Ht Hu. unfold Sql.insert_user, Sql.on_table.
  rewrite Ht, existsb_user_rows, Hu. simpl. split; trivial.
  eexists. split; [reflexivity|]. now repeat split.
Qed.

Lemma user_rows_single (u v : string) (r : Users.row) :
  Users.username r = u ->
  user_rows v [r] = if String.eqb u v then [r] else [].
Proof. intros <-. reflexivity. Qed.

(** X6.  A username without a row: [create_user] returns [True]; afterwards the
    user exists with balance 0.0, the balance of every other user reads as
    before, and a second [create_user] with the same username, whatever
    its other arguments, returns [False] and changes nothing. *)
Theorem create_user_fresh_username
        (hashpw : string -> string -> string) (db : store)
        (u pw : string) (email : option string) (salt : string) (now : Z) :
  fst (Database.contains_user u db) = Return false ->
  let db' := snd (Database.create_user hashpw u pw email salt now db) in
  fst (Database.create_user hashpw u pw email salt now db) = Return (PyBool true) /\
  fst (Database.contains_user u db') = Return true /\
  fst (Database.get_balance u db') = Return (Some 0%float) /\
  (forall v, v <> u ->
             fst (Database.get_balance v db') = fst (Database.get_balance v db)) /\
  (forall pw2 email2 salt2 now2,
      Database.create_user hashpw u pw2 email2 salt2 now2 db'
      = (Return (PyBool false), db')).
Proof.
  rewrite contains_user_eq. intros H db'. subst db'.
  destruct (Sql.has_table "users" db) eqn:Ht; [|discriminate].
  destruct (user_rows u (users db)) eqn:Hu; [|discriminate].
  rewrite (create_user_eq hashpw db u pw email salt now), Ht, Hu. simpl.
  destruct (users_after_insert db u (hashpw pw salt) email now Ht Hu)
    as (Ht' & r & Hr & Hname & _ & _ & Hbal).
  set (db' := snd (Sql.insert_user u (hashpw pw salt) email now db)) in *.
  assert (Hrows : forall v, user_rows v (users db') =
                            user_rows v (users db) ++
                            (if String.eqb u v then [r] else [])).
  { intro v. now rewrite Hr, user_rows_app, (user_rows_single u v r Hname). }
  assert (Hown : user_rows u (users db') = [r]).
  { now rewrite Hrows, Hu, String.eqb_refl. }
  repeat split.
  - now rewrite contains_user_eq, Ht', Hown.
  - rewrite get_balance_eq, Ht', Hown. simpl. now rewrite Hbal.
  - intros v N. rewrite !get_balance_eq, Ht', Ht, Hrows.
    destruct (String.eqb_spec u v) as [E|_]; [congruence|].
    rewrite app_nil_r. now destruct (user_rows v (users db)).
  - intros. now rewrite create_user_eq, Ht', Hown.
Qed.

Lemma create_user_fresh_username_witness :
  fst (Database.get_balance "carol"
         (snd (Database.create_user (fun password salt => append salt password)
                 "carol" "hunter2" None "$2b$12$s" 9 example_store)))
  = Return (Some 0%float).
Proof.
  apply (create_user_fresh_username (fun password salt => append salt password)
           example_store "carol" "hunter2" None "$2b$12$s" 9).
  reflexivity.
Defined.

Lemma verify_user_eq (checkpw : string -> string -> bool) (u p : string)
      (db : store) :
  Account.verify_user checkpw u p db =
  if Sql.has_table "users" db then
    (Return (match user_rows u (users db) with
             | [] => false
             | r :: _ => checkpw p (Users.password r)
             end), db)
  else (Raise OperationalError, db).
Proof.
  unfold Account.verify_user, bind, Stmt.select_id_password, Sql.on_table, user_rows.
  destruct (Sql.has_table "users" db); trivial.
  destruct (filter _ (users db)); simpl; trivial.
  now destruct (checkpw p _).
Qed.

(** X7.  After [create_user] on a fresh username, [verify_user] with any
    password answers what [checkpw] says of that password against the hash
    stored at creation; so it answers [True] for the creation password as
    soon as bcrypt accepts a password against its own hash. *)
Theorem verify_user_after_create_user
        (hashpw : string -> string -> string) (checkpw : string -> string -> bool)
        (db : store) (u pw : string) (email : option string) (salt : string)
        (now : Z) :
  fst (Database.contains_user u db) = Return false ->
  let db' := snd (Database.create_user hashpw u pw email salt now db) in
  (forall p, Account.verify_user checkpw u p db'
             = (Return (checkpw p (hashpw pw salt)), db')) /\
  (checkpw pw (hashpw pw salt) = true ->
   fst (Account.verify_user checkpw u pw db') = Return true).
Proof.
  rewrite contains_user_eq. intros H db'. subst db'.
  destruct (Sql.has_table "users" db) eqn:Ht; [|discriminate].
  destruct (user_rows u (users db)) eqn:Hu; [|discriminate].
  rewrite (create_user_eq hashpw db u pw email salt now), Ht, Hu. simpl.
  destruct (users_after_insert db u (hashpw pw salt) email now Ht Hu)
    as (Ht' & r & Hr & Hname & Hpw & _).
  set (db' := snd (Sql.insert_user u (hashpw pw salt) email now db)) in *.
  assert (Hown : user_rows u (users db') = [r]).
  { rewrite Hr, user_rows_app, Hu, (user_rows_single u u r Hname).
    now rewrite String.eqb_refl. }
  assert (V : forall p, Account.verify_user checkpw u p db'
                        = (Return (checkpw p (hashpw pw salt)), db')).
  { intro p. now rewrite verify_user_eq, Ht', Hown, Hpw. }
  split; [exact V|]. intro C. now rewrite V, C.
Qed.

Lemma verify_user_after_create_user_witness :
  fst (Account.verify_user String.eqb "carol" "hunter2"
         (snd (Database.create_user (fun password salt => password)
                 "carol" "hunter2" None "$2b$12$s" 9 example_store)))
  = Return true.
Proof.
  apply (verify_user_after_create_user (fun password salt => password) String.eqb
           example_store "carol" "hunter2" None "$2b$12$s" 9).
  - reflexivity.
  - reflexivity.
Defined.

(** X8.  For a username without a row [verify_user] answers [False] whatever
    the password and whatever bcrypt would say, and leaves the store as it
    is. *)
Theorem verify_user_unknown_user
        (checkpw : string -> string -> bool) (db : store) (u p : string) :
  fst (Database.contains_user u db) = Return false ->
  Account.verify_user checkpw u p db = (Return false, db).
Proof.
  rewrite contains_user_eq, verify_user_eq.
  destruct (Sql.has_table "users" db); [|discriminate].
  now destruct (user_rows u (users db)).
Qed.

Lemma verify_user_unknown_user_witness :
  Account.verify_user (fun _ _ => true) "carol" "anything" example_store
  = (Return false, example_store).
Proof.
  apply verify_user_unknown_user. reflexivity.
Defined.

Lemma delete_user_eq (u : string) (db : store) :
  Account.delete_user u db =
  if Sql.has_table "users" db then
    (Return PyNone,
     Sql.with_users
       (filter (fun r => negb (String.eqb (Users.username r) u)) (users db)) db)
  else (Raise OperationalError, db).
Proof.
  unfold Account.delete_user, bind, Stmt.delete_user, Sql.on_table.
  now destruct (Sql.has_table "users" db).
Qed.

Lemma user_rows_after_delete (u v : string) (l : list Users.row) :
  user_rows v (filter (fun r => negb (String.eqb (Users.username r) u)) l) =
  if String.eqb u v then [] else user_rows v l.
Proof.
  unfold user_rows. induction l as [|r l IH]; simpl.
  - now destruct (String.eqb u v).
  - destruct (String.eqb_spec (Users.username r) u) as [Hu|Hu]; simpl;
      [|destruct (String.eqb_spec (Users.username r) v) as [Hv|Hv]];
      rewrite IH; destruct (String.eqb_spec u v) as [E|E]; trivial;
      try congruence.
    destruct (String.eqb_spec (Users.username r) v); trivial; congruence.
Qed.

(** X9.  [delete_user] on a store with a users table returns [None]; afterwards
    the username has no row, so that [get_balance] on it raises, and
    the balance of every other user reads as before. *)
Theorem delete_user_removes_the_user (db : store) (u : string) :
  Sql.has_table "users" db = true ->
  let db' := snd (Account.delete_user u db) in
  fst (Account.delete_user u db) = Return PyNone /\
  fst (Database.contains_user u db') = Return false /\
  fst (Database.get_balance u db') = Raise TypeError /\
  (forall v, v <> u ->
             fst (Database.get_balance v db') = fst (Database.get_balance v db)).
Proof.
  intros Ht db'. subst db'. rewrite delete_user_eq, Ht. simpl.
  repeat split.
  - rewrite contains_user_eq, has_table_with_users, Ht. simpl users.
    now rewrite user_rows_after_delete, String.eqb_refl.
  - rewrite get_balance_eq, has_table_with_users, Ht. simpl users.
    now rewrite user_rows_after_delete, String.eqb_refl.
  - intros v N. rewrite !get_balance_eq, has_table_with_users, Ht. simpl users.
    rewrite user_rows_after_delete.
    destruct (String.eqb_spec u v) as [E|_]; [congruence|].
    now destruct (user_rows v (users db)).
Qed.

Lemma delete_user_removes_the_user_witness :
  fst (Database.get_balance "alice" (snd (Account.delete_user "alice" example_store)))
  = Raise TypeError.
Proof.
  apply (delete_user_removes_the_user example_store "alice").
  reflexivity.
Defined.

(** X10.  The connections of [_connect] do not enforce foreign keys: no call of
    [delete_user] removes a portfolio or a position, and no call of
    [delete_ticker] removes a position, whatever the rows reference. *)
Theorem deletes_do_not_cascade (db : store) (s : string) :
  portfolios (snd (Account.delete_user s db)) = portfolios db /\
  positions (snd (Account.delete_user s db)) = positions db /\
  portfolios (snd (Database.delete_ticker s db)) = portfolios db /\
  positions (snd (Database.delete_ticker s db)) = positions db.
Proof.
  rewrite delete_user_eq.
  unfold Database.delete_ticker, Sql.delete_ticker, bind, Sql.on_table.
  destruct (Sql.has_table "users" db);
    destruct (Sql.has_table "tickers" db) eqn:Ht; simpl;
    destruct (str_items s) as [|i [|j l]]; rewrite ?Ht; now repeat split.
Qed.

(** X11.  [create_user] on a fresh username followed by [delete_user] of it:
    the rows of the users table are the rows before the two calls. *)
Theorem create_then_delete_user
        (hashpw : string -> string -> string) (db : store)
        (u pw : string) (email : option string) (salt : string) (now : Z) :
  fst (Database.contains_user u db) = Return false ->
  users (snd (Account.delete_user u
                (snd (Database.create_user hashpw u pw email salt now db))))
  = users db.
Proof.
  rewrite contains_user_eq.
  destruct (Sql.has_table "users" db) eqn:Ht; [|discriminate].
  destruct (user_rows u (users db)) eqn:Hu; [|discriminate]. intros _.
  rewrite (create_user_eq hashpw db u pw email salt now), Ht, Hu. simpl.
  destruct (users_after_insert db u (hashpw pw salt) email now Ht Hu)
    as (Ht' & r & Hr & Hname & _).
  rewrite delete_user_eq, Ht'. simpl. rewrite Hr, filter_app. simpl.
  rewrite Hname, String.eqb_refl. simpl.
  now rewrite app_nil_r, (user_rows_nil_filter u (users db) Hu).
Qed.

Lemma create_then_delete_user_witness :
  users (snd (Account.delete_user "carol"
                (snd (Database.create_user (fun password salt => append salt password)
                        "carol" "hunter2" None "$2b$12$s" 9 example_store))))
  = users example_store.
Proof.
  apply create_then_delete_user. reflexivity.
Defined.

(** * Further properties of the schema *)

Lemma has_table_iff_in (n : string) (db : store) :
  Sql.has_table n db = true <->
  In {| SqliteMaster.type := "table"; SqliteMaster.name := n |} (sqlite_master db).
Proof.
  unfold Sql.has_table. rewrite existsb_exists. split.
  - intros ([t m] & Hin & H). apply andb_true_iff in H. destruct H as (Ht & Hm).
    apply String.eqb_eq in Ht, Hm. simpl in *. now subst.
  - intro Hin. eexists. split; [exact Hin|]. simpl.
    now rewrite !String.eqb_refl.
Qed.

Lemma selected_eq_has_table (db : store) (n : string) :
  In n Database.required_tables ->
  existsb (String.eqb n) (Sql.select_required_tables db) = Sql.has_table n db.
Proof.
  intro Hn. apply eq_iff_eq_true.
  now rewrite (selected_iff_table db n Hn), has_table_iff_in.
Qed.

Lemma is_init_has_table (db : store) :
  Database.is_init db =
  Sql.has_table "users" db && (Sql.has_table "portfolios" db &&
  (Sql.has_table "tickers" db && (Sql.has_table "positions" db && true))).
Proof.
  rewrite is_init_forallb. unfold Database.required_tables. cbn [forallb].
  rewrite !selected_eq_has_table; trivial;
    unfold Database.required_tables; simpl; tauto.
Qed.

Lemma same_name_refl (n : string) : same_name n n = true.
Proof. apply String.eqb_refl. Qed.

Lemma existsb_false_forall {A} (f : A -> bool) (l : list A) :
  existsb f l = false <-> forall x, In x l -> f x = false.
Proof.
  split.
  - intros H x Hin. destruct (f x) eqn:E; trivial.
    assert (T : existsb f l = true) by (apply existsb_exists; now exists x).
    congruence.
  - intro H. destruct (existsb f l) eqn:E; trivial.
    apply existsb_exists in E. destruct E as (x & Hin & Hx).
    rewrite (H x Hin) in Hx. discriminate.
Qed.

(** On a table the catalog has, CREATE TABLE IF NOT EXISTS does nothing. *)
Lemma create_existing_table (n : string) (db : store) :
  Sql.has_table n db = true ->
  Sql.create_table_if_not_exists n db = (Return tt, db).
Proof.
  intro H. unfold Sql.create_table_if_not_exists.
  replace (existsb _ (sqlite_master db)) with true; trivial.
  symmetry. apply existsb_exists.
  apply has_table_iff_in in H. eexists. split; [exact H|]. simpl.
  now rewrite same_name_refl.
Qed.

Lemma keeps_tables_refl (db : store) : keeps_tables db db.
Proof. now repeat split. Qed.

Lemma keeps_tables_trans (a b c : store) :
  keeps_tables a b -> keeps_tables b c -> keeps_tables a c.
Proof.
  intros (M1 & U1 & P1 & T1 & S1) (M2 & U2 & P2 & T2 & S2).
  repeat split; intros.
  - auto.
  - rewrite U2, U1; auto.
  - rewrite P2, P1; auto.
  - rewrite T2, T1; auto.
  - rewrite S2, S1; auto.
Qed.

Lemma create_keeps_tables (m : string) (db : store) :
  keeps_tables db (snd (Sql.create_table_if_not_exists m db)).
Proof.
  destruct (Sql.has_table m db) eqn:Hm.
  - rewrite (create_existing_table m db Hm). apply keeps_tables_refl.
  - unfold Sql.create_table_if_not_exists.
    destruct (existsb _ (sqlite_master db)); [apply keeps_tables_refl|].
    destruct (existsb _ (sqlite_master db)); [apply keeps_tables_refl|].
    unfold keeps_tables. cbn [snd users portfolios tickers positions]. split.
    + intros n H. unfold Sql.has_table in *. cbn [sqlite_master].
      now rewrite existsb_app, H.
    + repeat split; intro H;
        match goal with
        | |- (if String.eqb m ?n then _ else _) = _ =>
            destruct (String.eqb_spec m n) as [->|_]; [congruence|reflexivity]
        end.
Qed.

Lemma create_schema_keeps_tables (db : store) :
  keeps_tables db (snd (Database.create_schema db)).
Proof.
  unfold Database.create_schema, bind.
  pose proof (create_keeps_tables "users" db) as K1.
  destruct (Sql.create_table_if_not_exists "users" db) as [[[]|e] d1];
    simpl in K1; [|exact K1].
  pose proof (create_keeps_tables "portfolios" d1) as K2.
  destruct (Sql.create_table_if_not_exists "portfolios" d1) as [[[]|e] d2];
    simpl in K2; [|exact (keeps_tables_trans _ _ _ K1 K2)].
  pose proof (create_keeps_tables "tickers" d2) as K3.
  destruct (Sql.create_table_if_not_exists "tickers" d2) as [[[]|e] d3];
    simpl in K3;
    [|exact (keeps_tables_trans _ _ _ K1 (keeps_tables_trans _ _ _ K2 K3))].
  pose proof (create_keeps_tables "positions" d3) as K4.
  destruct (Sql.create_table_if_not_exists "positions" d3) as [[[]|e] d4];
    simpl in K4;
    exact (keeps_tables_trans _ _ _ K1
             (keeps_tables_trans _ _ _ K2 (keeps_tables_trans _ _ _ K3 K4))).
Qed.

Lemma create_schema_fixed (db : store) :
  Database.is_init db = true ->
  Database.create_schema db = (Return PyNone, db).
Proof.
  intro Hd. rewrite is_init_has_table in Hd.
  apply andb_true_iff in Hd. destruct Hd as (H1 & Hd).
  apply andb_true_iff in Hd. destruct Hd as (H2 & Hd).
  apply andb_true_iff in Hd. destruct Hd as (H3 & Hd).
  apply andb_true_iff in Hd. destruct Hd as (H4 & _).
  unfold Database.create_schema, bind.
  now rewrite (create_existing_table _ _ H1), (create_existing_table _ _ H2),
    (create_existing_table _ _ H3), (create_existing_table _ _ H4).
Qed.

(** One CREATE TABLE IF NOT EXISTS of a required table on a catalog
    without clashing entries. *)
Lemma create_without_clash (n : string) (db : store) :
  In n Database.required_tables ->
  existsb clashing (sqlite_master db) = false ->
  let db' := snd (Sql.create_table_if_not_exists n db) in
  fst (Sql.create_table_if_not_exists n db) = Return tt /\
  Sql.has_table n db' = true /\
  existsb clashing (sqlite_master db') = false.
Proof.
  intros Hn Hc db'. subst db'.
  destruct (Sql.has_table n db) eqn:Ht.
  - rewrite (create_existing_table n db Ht). now repeat split.
  - assert (F : forall e, In e (sqlite_master db) ->
                          same_name (SqliteMaster.name e) n = false).
    { intros e Hin. destruct (same_name (SqliteMaster.name e) n) eqn:S; trivial.
      pose proof (proj1 (existsb_false_forall _ _) Hc e Hin) as C.
      unfold clashing in C.
      pose proof (proj1 (existsb_false_forall _ _) C n Hn) as D.
      simpl in D. rewrite S in D. simpl in D.
      apply negb_false_iff, andb_true_iff in D. destruct D as (D1 & D2).
      assert (T : Sql.has_table n db = true).
      { apply existsb_exists. exists e. split; trivial. now rewrite D1, D2. }
      congruence. }
    unfold Sql.create_table_if_not_exists.
    replace (existsb (fun e => (String.eqb (SqliteMaster.type e) "table"
                                || String.eqb (SqliteMaster.type e) "view")
                               && same_name (SqliteMaster.name e) n)
                     (sqlite_master db)) with false.
    2:{ symmetry. apply existsb_false_forall. intros e Hin.
        rewrite (F e Hin). apply andb_false_r. }
    replace (existsb (fun e => String.eqb (SqliteMaster.type e) "index"
                               && same_name (SqliteMaster.name e) n)
                     (sqlite_master db)) with false.
    2:{ symmetry. apply existsb_false_forall. intros e Hin.
        rewrite (F e Hin). apply andb_false_r. }
    simpl. repeat split.
    + unfold Sql.has_table. simpl. rewrite existsb_app. simpl.
      now rewrite String.eqb_refl, orb_true_r.
    + rewrite existsb_app, Hc. simpl.
      unfold Database.required_tables in Hn. simpl in Hn.
      destruct Hn as [<-|[<-|[<-|[<-|[]]]]]; reflexivity.
Qed.

Lemma create_schema_initializes_aux (db : store) :
  existsb clashing (sqlite_master db) = false ->
  fst (Database.create_schema db) = Return PyNone /\
  Database.is_init (snd (Database.create_schema db)) = true.
Proof.
  intro Hc.
  unfold Database.create_schema, bind.
  destruct (create_without_clash "users" db) as (R1 & T1 & C1);
    [simpl; tauto|exact Hc|].
  destruct (Sql.create_table_if_not_exists "users" db) as [o1 d1].
  simpl in R1, T1, C1. subst o1.
  destruct (create_without_clash "portfolios" d1) as (R2 & T2 & C2);
    [simpl; tauto|exact C1|].
  pose proof (create_keeps_tables "portfolios" d1) as (M2 & _).
  destruct (Sql.create_table_if_not_exists "portfolios" d1) as [o2 d2].
  simpl in R2, T2, C2, M2. subst o2.
  destruct (create_without_clash "tickers" d2) as (R3 & T3 & C3);
    [simpl; tauto|exact C2|].
  pose proof (create_keeps_tables "tickers" d2) as (M3 & _).
  destruct (Sql.create_table_if_not_exists "tickers" d2) as [o3 d3].
  simpl in R3, T3, C3, M3. subst o3.
  destruct (create_without_clash "positions" d3) as (R4 & T4 & C4);
    [simpl; tauto|exact C3|].
  pose proof (create_keeps_tables "positions" d3) as (M4 & _).
  destruct (Sql.create_table_if_not_exists "positions" d3) as [o4 d4].
  simpl in R4, T4, C4, M4. subst o4. simpl.
  split; trivial. rewrite is_init_has_table.
  now rewrite (M4 _ (M3 _ (M2 _ T1))), (M4 _ (M3 _ T2)), (M4 _ T3), T4.
Qed.

(** X12.  On a catalog where no entry clashes with the four table names
    (none has the name of a required table, in whatever case, without
    being that table: no view or index so named, no table named in
    another case), [create_schema] returns [None] and leaves a store on
    which [is_init] answers [True]; run again on its own result it changes
    nothing. *)
Theorem create_schema_initializes (db : store) :
  existsb clashing (sqlite_master db) = false ->
  let db' := snd (Database.create_schema db) in
  fst (Database.create_schema db) = Return PyNone /\
  Database.is_init db' = true /\
  Database.create_schema db' = (Return PyNone, db').
Proof.
  intros Hc db'.
  destruct (create_schema_initializes_aux db Hc) as (R1 & R2).
  repeat split; trivial.
  now apply create_schema_fixed.
Qed.

Lemma create_schema_initializes_witness :
  Database.is_init (snd (Database.create_schema partial_store)) = true.
Proof.
  apply (create_schema_initializes partial_store). reflexivity.
Defined.

(** X13.  On a store where [is_init] answers [True], [create_schema] changes
    nothing: catalog and rows are the ones it found. *)
Theorem create_schema_on_initialized (db : store) :
  Database.is_init db = true ->
  Database.create_schema db = (Return PyNone, db).
Proof.
  intro Hd. rewrite (create_schema_fixed db Hd). reflexivity.
Qed.

Lemma create_schema_on_initialized_witness :
  Database.create_schema example_store = (Return PyNone, example_store).
Proof.
  apply create_schema_on_initialized. reflexivity.
Defined.

Lemma create_schema_rows (db : store) :
  let db' := snd (Database.create_schema db) in
  (Sql.has_table "users" db = true -> users db' = users db) /\
  (Sql.has_table "portfolios" db = true -> portfolios db' = portfolios db) /\
  (Sql.has_table "tickers" db = true -> tickers db' = tickers db) /\
  (Sql.has_table "positions" db = true -> positions db' = positions db).
Proof.
  intro db'. destruct (create_schema_keeps_tables db) as (_ & K). exact K.
Qed.

(** X14.  [create_schema] drops no data: the rows of each of the four tables
    that the catalog already has are the rows it found, also when other
    tables are missing and get created. *)
Theorem create_schema_keeps_rows (db : store) :
  let db' := snd (Database.create_schema db) in
  (Sql.has_table "users" db = true -> users db' = users db) /\
  (Sql.has_table "portfolios" db = true -> portfolios db' = portfolios db) /\
  (Sql.has_table "tickers" db = true -> tickers db' = tickers db) /\
  (Sql.has_table "positions" db = true -> positions db' = positions db).
Proof.
  intro db'. destruct (create_schema_rows db) as (A & B & C & D).
  repeat split; assumption.
Qed.

Lemma create_schema_keeps_rows_witness :
  users (snd (Database.create_schema
                (Sql.with_users (users example_store) partial_store)))
  = users example_store.
Proof.
  apply (create_schema_keeps_rows
           (Sql.with_users (users example_store) partial_store)).
  reflexivity.
Defined.

(** * Properties of the ticker methods *)

Lemma existsb_symbol_in (symbol : string) (l : list Tickers.row) :
  existsb (fun t => String.eqb (Tickers.ticker_symbol t) symbol) l = true <->
  In symbol (map Tickers.ticker_symbol l).
Proof.
  rewrite existsb_exists, in_map_iff. split.
  - intros (t & Hin & E). apply String.eqb_eq in E. now exists t.
  - intros (t & E & Hin). exists t. split; trivial. now apply String.eqb_eq.
Qed.

Lemma get_all_tickers_eq (db : store) :
  Ticker.get_all_tickers db =
  if Sql.has_table "tickers" db then
    (Return (map (fun t => (Tickers.ticker_symbol t, Tickers.current_price t))
               (tickers db)), db)
  else (Raise OperationalError, db).
Proof.
  unfold Ticker.get_all_tickers, bind, Stmt.select_tickers, Sql.on_table.
  now destruct (Sql.has_table "tickers" db).
Qed.

Lemma get_all_tickers_returns (db : store) (listing : list (string * option float)) :
  fst (Ticker.get_all_tickers db) = Return listing ->
  Sql.has_table "tickers" db = true /\
  listing = map (fun t => (Tickers.ticker_symbol t, Tickers.current_price t))
                (tickers db) /\
  map fst listing = map Tickers.ticker_symbol (tickers db).
Proof.
  rewrite get_all_tickers_eq.
  destruct (Sql.has_table "tickers" db); [|discriminate].
  simpl. intro H. injection H as <-. repeat split.
  rewrite map_map. reflexivity.
Qed.

Lemma create_ticker_eq (symbol name : string) (price : float) (rowid now : Z)
      (db : store) :
  Ticker.create_ticker symbol name price rowid now db =
  if Sql.has_table "tickers" db then
    if existsb (fun t => String.eqb (Tickers.ticker_symbol t) symbol) (tickers db)
    then (Return (PyBool false), db)
    else (Return (PyBool true),
          Stmt.with_tickers
            (tickers db ++ [ {| Tickers.id := rowid;
                                Tickers.ticker_symbol := symbol;
                                Tickers.current_price := bind_real price;
                                Tickers.company_name := Some name;
                                Tickers.updated_at := now |} ])
            db)
  else (Raise OperationalError, db).
Proof.
  unfold Ticker.create_ticker, try_except, bind, Stmt.insert_ticker, Sql.on_table.
  destruct (Sql.has_table "tickers" db); trivial.
  now destruct (existsb _ (tickers db)).
Qed.

(** X16.  [create_ticker] with a symbol the table already lists returns [False]
    and changes nothing, whatever name and price it is given. *)
Theorem create_ticker_listed_symbol (db : store) (listing : list (string * option float))
        (symbol name : string) (price : float) (rowid now : Z) :
  fst (Ticker.get_all_tickers db) = Return listing ->
  In symbol (map fst listing) ->
  Ticker.create_ticker symbol name price rowid now db = (Return (PyBool false), db).
Proof.
  intros H Hin. destruct (get_all_tickers_returns db listing H) as (Ht & _ & Hs).
  rewrite Hs in Hin. apply existsb_symbol_in in Hin.
  now rewrite create_ticker_eq, Ht, Hin.
Qed.

Lemma create_ticker_listed_symbol_witness :
  Ticker.create_ticker "XYZ" "Another XYZ" 1%float 99 99 example_store
  = (Return (PyBool false), example_store).
Proof.
  apply (create_ticker_listed_symbol example_store
           [("XYZ"%string, Some 60%float); ("AAPL"%string, Some 100%float); ("F"%string, Some 10%float)]).
  - reflexivity.
  - simpl. tauto.
Defined.



Lemma update_ticker_eq (close_first : string -> outcome float) (symbol : string)
      (db : store) :
  Ticker.update_ticker close_first symbol db =
  match close_first symbol with
  | Raise e => (Raise e, db)
  | Return p =>
      if Sql.has_table "tickers" db then
        (Return PyNone,
         Stmt.with_tickers
           (map (fun t => if String.eqb (Tickers.ticker_symbol t) symbol
                          then Stmt.set_price p t else t) (tickers db)) db)
      else (Raise OperationalError, db)
  end.
Proof.
  unfold Ticker.update_ticker, bind, lift, Stmt.update_price, Sql.on_table.
  destruct (close_first symbol); trivial.
  now destruct (Sql.has_table "tickers" db).
Qed.



Lemma tickers_only_refl (db : store) : tickers_only db db.
Proof. now repeat split. Qed.

Lemma tickers_only_trans (a b c : store) :
  tickers_only a b -> tickers_only b c -> tickers_only a c.
Proof.
  unfold tickers_only. intros (A1 & A2 & A3 & A4 & A5) (B1 & B2 & B3 & B4 & B5).
  repeat split; congruence.
Qed.

Lemma tickers_only_has_table (n : string) (db db' : store) :
  tickers_only db db' -> Sql.has_table n db' = Sql.has_table n db.
Proof. intros (M & _). unfold Sql.has_table. now rewrite M. Qed.

Lemma tickers_only_is_init (db db' : store) :
  tickers_only db db' -> Database.is_init db' = Database.is_init db.
Proof.
  intros (M & _).
  unfold Database.is_init, Sql.select_required_tables. now rewrite M.
Qed.

Lemma update_ticker_frame (close_first : string -> outcome float) (symbol : string)
      (db : store) :
  tickers_only db (snd (Ticker.update_ticker close_first symbol db)).
Proof.
  rewrite update_ticker_eq. destruct (close_first symbol).
  - destruct (Sql.has_table "tickers" db); now repeat split.
  - apply tickers_only_refl.
Qed.

Lemma update_each_frame (close_first : string -> outcome float)
      (items : list (string * string)) (db : store) :
  tickers_only db (snd (Ticker.update_each close_first items db)).
Proof.
  revert db. induction items as [|[tic name] rest IH]; intro db; simpl.
  - apply tickers_only_refl.
  - unfold bind.
    pose proof (update_ticker_frame close_first tic db) as F.
    destruct (Ticker.update_ticker close_first tic db) as [[v|e] db1]; simpl in *.
    + apply (tickers_only_trans db db1); [exact F|apply IH].
    + exact F.
Qed.

(** X19.  [update_all_tickers] has no handler around the price source.  When
    the source raises for a ticker of the list after returning for all
    the tickers before it, the call raises that exception; the tickers
    before it keep the prices just written and no later ticker is
    updated: the store is the one the loop over the tickers before it
    leaves. *)
Theorem update_all_tickers_stops_at_failure
        (close_first : string -> outcome float) (db : store)
        (before after : list (string * string)) (tic name : string) (e : exn) :
  Sql.has_table "tickers" db = true ->
  Forall (fun tn => exists p, close_first (fst tn) = Return p) before ->
  close_first tic = Raise e ->
  fst (Ticker.update_all_tickers close_first before db) = Return PyNone /\
  Ticker.update_all_tickers close_first (before ++ (tic, name) :: after) db
  = (Raise e, snd (Ticker.update_all_tickers close_first before db)).
Proof.
  unfold Ticker.update_all_tickers. intros Ht Hb He. revert db Ht.
  induction Hb as [|[t n] rest (p & Hp) _ IH]; intros db Ht; simpl.
  - split; trivial. unfold bind. now rewrite update_ticker_eq, He.
  - simpl in Hp. unfold bind.
    pose proof (update_ticker_frame close_first t db) as F.
    rewrite update_ticker_eq, Hp, Ht in *. simpl in F.
    apply IH. now rewrite (tickers_only_has_table "tickers" _ _ F).
Qed.

Lemma update_all_tickers_stops_at_failure_witness :
  Ticker.update_all_tickers
    (fun s => if String.eqb s "AAPL" then Raise TypeError else Return 75%float)
    (List.app [("XYZ"%string, "XYZ Corp"%string)]
              (("AAPL"%string, "Apple"%string) :: [("F"%string, "Ford"%string)]))
    example_store
  = (Raise TypeError,
     snd (Ticker.update_all_tickers
            (fun s => if String.eqb s "AAPL" then Raise TypeError else Return 75%float)
            [("XYZ", "XYZ Corp")]%string example_store)).
Proof.
  apply (update_all_tickers_stops_at_failure
           (fun s => if String.eqb s "AAPL" then Raise TypeError else Return 75%float)
           example_store [("XYZ", "XYZ Corp")]%string [("F", "Ford")]%string
           "AAPL" "Apple" TypeError).
  - reflexivity.
  - repeat constructor. now exists 75%float.
  - reflexivity.
Defined.

Lemma add_tickers_from_limit (close_last : string -> outcome float)
      (rowid now : store -> Z) (limit : Z) (items : list (string * string)) :
  forall (i : nat) (db : store),
    Ticker.add_tickers_from close_last rowid now i items (Some limit) db =
    Ticker.add_tickers_from close_last rowid now i
      (firstn (Z.to_nat (Z.max 1 (limit + 2 - Z.of_nat i))) items) None db.
Proof.
  induction items as [|[tic name] rest IH]; intros i db.
  - now rewrite firstn_nil.
  - destruct (Z.ltb_spec limit (Z.of_nat i)) as [L|L].
    + replace (Z.to_nat (Z.max 1 (limit + 2 - Z.of_nat i))) with 1%nat by lia.
      simpl. unfold bind.
      destruct (lift (close_last tic) db) as [[price|e] db0]; trivial.
      destruct (Ticker.create_ticker _ _ _ _ _ db0) as [[v|e] db1]; trivial.
      destruct (Z.ltb_spec limit (Z.of_nat i)); [reflexivity|lia].
    + replace (Z.to_nat (Z.max 1 (limit + 2 - Z.of_nat i)))
        with (S (Z.to_nat (Z.max 1 (limit + 2 - Z.of_nat (S i))))) by lia.
      simpl firstn. cbn [Ticker.add_tickers_from]. unfold bind.
      destruct (lift (close_last tic) db) as [[price|e] db0]; trivial.
      destruct (Ticker.create_ticker _ _ _ _ _ db0) as [[v|e] db1]; trivial.
      destruct (Z.ltb_spec limit (Z.of_nat i)); [lia|]. apply IH.
Qed.

(** X20.  The test [i > debugLimit] sits after the insertion and compares the
    index strictly: [_add_all_tickers] with a limit of [l] does what the
    unlimited loop does on the first [l + 2] tickers of the list, and on the
    first ticker alone when [l] is negative.  The default of 50 stops after
    52 tickers. *)
Theorem add_all_tickers_limit (close_last : string -> outcome float)
        (get_ticker_dict : list (string * string)) (rowid now : store -> Z)
        (debugLimit : Z) (db : store) :
  Ticker._add_all_tickers close_last get_ticker_dict rowid now (Some debugLimit) db
  = Ticker._add_all_tickers close_last
      (firstn (Z.to_nat (Z.max 1 (debugLimit + 2))) get_ticker_dict)
      rowid now None db.
Proof.
  unfold Ticker._add_all_tickers. rewrite add_tickers_from_limit.
  simpl Z.of_nat. now rewrite Z.sub_0_r.
Qed.

Lemma create_ticker_frame (symbol name : string) (price : float) (rowid now : Z)
      (db : store) :
  tickers_only db (snd (Ticker.create_ticker symbol name price rowid now db)).
Proof.
  rewrite create_ticker_eq.
  destruct (Sql.has_table "tickers" db); [|apply tickers_only_refl].
  destruct (existsb _ (tickers db)); now repeat split.
Qed.

Lemma add_tickers_from_frame (close_last : string -> outcome float)
      (rowid now : store -> Z) (debugLimit : option Z)
      (items : list (string * string)) :
  forall (i : nat) (db : store),
    tickers_only db
      (snd (Ticker.add_tickers_from close_last rowid now i items debugLimit db)).
Proof.
  induction items as [|[tic name] rest IH]; intros i db; simpl.
  - apply tickers_only_refl.
  - unfold bind, lift.
    destruct (close_last tic) as [price|e]; [|apply tickers_only_refl].
    pose proof (create_ticker_frame tic name price (rowid db) (now db) db) as F.
    destruct (Ticker.create_ticker tic name price (rowid db) (now db) db)
      as [[v|e] db1]; simpl in *; trivial.
    destruct (match debugLimit with
              | Some limit => Z.ltb limit (Z.of_nat i)
              | None => false
              end); trivial.
    apply (tickers_only_trans db db1); [exact F|apply IH].
Qed.

(** X15.  Whatever the constructor is given and whether or not the price
    source raises on the way: on a store that passes [is_init], or whose
    catalog has no entry clashing with the four table names, the store it
    leaves passes [is_init]; the rows of a users table that existed are
    the rows it found; and on a store that already passes [is_init],
    without [update_tickers], it changes nothing. *)
Theorem init_leaves_initialized
        (close_last close_first : string -> outcome float)
        (get_ticker_dict : list (string * string)) (rowid now : store -> Z)
        (update_tickers : bool) (db : store) :
  let run := Ticker.__init__ close_last close_first get_ticker_dict rowid now in
  (Database.is_init db = true \/ existsb clashing (sqlite_master db) = false ->
   Database.is_init (snd (run update_tickers db)) = true) /\
  (Sql.has_table "users" db = true -> users (snd (run update_tickers db)) = users db) /\
  (Database.is_init db = true -> run false db = (Return PyNone, db)).
Proof.
  intro run. subst run. unfold Ticker.__init__.
  destruct (Database.is_init db) eqn:I; simpl negb; cbv iota.
  - assert (F : tickers_only db
                  (snd (if update_tickers
                        then Ticker.update_all_tickers close_first get_ticker_dict db
                        else (Return PyNone, db)))).
    { destruct update_tickers; [apply update_each_frame|apply tickers_only_refl]. }
    repeat split.
    + intros _. now rewrite (tickers_only_is_init _ _ F).
    + intros _. apply F.
  - set (m := Ticker._add_all_tickers close_last get_ticker_dict rowid now
                (Some 50%Z)).
    unfold bind.
    pose proof (create_schema_keeps_tables db) as K.
    split; [|split; [|discriminate]].
    + intros [H|Hc]; [discriminate|].
      destruct (create_schema_initializes_aux db Hc) as (R & J).
      destruct (Database.create_schema db) as [o db1]. simpl in R, J. subst o.
      pose proof (add_tickers_from_frame close_last rowid now (Some 50%Z)
                    get_ticker_dict 0 db1) as F.
      rewrite <- J. exact (tickers_only_is_init _ _ F).
    + intro Hu. destruct K as (_ & Ku & _).
      destruct (Database.create_schema db) as [[v|e] db1]; simpl in Ku.
      * pose proof (add_tickers_from_frame close_last rowid now (Some 50%Z)
                      get_ticker_dict 0 db1) as (_ & _ & Fu & _).
        etransitivity; [exact Fu|]. now apply Ku.
      * now apply Ku.
Qed.

Lemma init_leaves_initialized_witness :
  users (snd (Ticker.__init__ (fun _ => Return 1%float) (fun _ => Return 1%float)
                [("XYZ"%string, "XYZ Corp"%string)] (fun _ => 7%Z) (fun _ => 9%Z)
                true example_store))
  = users example_store.
Proof.
  apply (init_leaves_initialized (fun _ => Return 1%float) (fun _ => Return 1%float)
           [("XYZ"%string, "XYZ Corp"%string)] (fun _ => 7%Z) (fun _ => 9%Z)
           true example_store).
  reflexivity.
Defined.

(** * Further properties of the positions page and of the portfolio methods *)

Lemma populate_zero_quantity (get_ticker_price : string -> outcome float)
      (position_data : list (string * number * float)) :
  Forall (fun d => (exists q, to_float (snd (fst d)) = Return q) /\
                   exists p, get_ticker_price (fst (fst d)) = Return p)
         position_data ->
  Exists (fun d => exists q, to_float (snd (fst d)) = Return q /\
                             (q =? 0)%float = true) position_data ->
  forall (table : list PositionsPage.table_row) (acc : PositionsPage.totals),
    PositionsPage.populate get_ticker_price position_data table acc
    = Raise ZeroDivisionError.
Proof.
  induction 1 as [|[[t n] cb] rest ((q & Hq) & p & Hp) _ IH]; intros Hz table acc.
  - inversion Hz.
  - simpl in Hq, Hp. cbn [PositionsPage.populate].
    unfold py_truediv, py_mul. rewrite Hq.
    destruct (q =? 0)%float eqn:E; trivial.
    cbn [and_then]. rewrite Hp. cbn [and_then]. apply IH.
    inversion Hz as [? ? (q' & Hq' & Hz')|? ? Hr]; subst; trivial.
    simpl in Hq'. congruence.
Qed.

(** X23.  One position with a quantity of zero, an int 0 or a float 0.0 of
    either sign, is enough for [make_ui] to raise ZeroDivisionError and
    build no table at all, when every quantity converts to a float and
    every price lookup returns. *)
Theorem make_ui_zero_quantity
        (get_all_positions : Z -> outcome (list (string * PositionsPage.position)))
        (get_ticker_price : string -> outcome float)
        (portfolio_id : Z) (all_positions : list (string * PositionsPage.position)) :
  get_all_positions portfolio_id = Return all_positions ->
  Forall (fun kv => (exists q, to_float (PositionsPage.quantity (snd kv)) = Return q) /\
                    exists p, get_ticker_price (fst kv) = Return p) all_positions ->
  Exists (fun kv => exists q, to_float (PositionsPage.quantity (snd kv)) = Return q /\
                              (q =? 0)%float = true) all_positions ->
  PositionsPage.make_ui get_all_positions get_ticker_price portfolio_id
  = Raise ZeroDivisionError.
Proof.
  intros Hget Hp Hz. unfold PositionsPage.make_ui. rewrite Hget. cbn [and_then].
  destruct all_positions as [|kv rest]; [inversion Hz|].
  change (map _ (kv :: rest)) with (map position_datum (kv :: rest)).
  rewrite (populate_zero_quantity get_ticker_price (map position_datum (kv :: rest)));
    trivial.
  - apply Forall_map. exact Hp.
  - apply Exists_map. exact Hz.
Qed.

Lemma make_ui_zero_quantity_witness :
  PositionsPage.make_ui
    (fun _ => Return [ ("XYZ"%string, {| PositionsPage.quantity := Int 10;
                                         PositionsPage.cost_basis := 500 |});
                       ("AAPL"%string, {| PositionsPage.quantity := Int 0;
                                          PositionsPage.cost_basis := 0 |}) ])
    example_ticker_price 1
  = Raise ZeroDivisionError.
Proof.
  apply (make_ui_zero_quantity _ example_ticker_price 1
           [ ("XYZ"%string, {| PositionsPage.quantity := Int 10;
                               PositionsPage.cost_basis := 500 |});
             ("AAPL"%string, {| PositionsPage.quantity := Int 0;
                                PositionsPage.cost_basis := 0 |}) ]).
  - reflexivity.
  - repeat constructor.
    + now exists 10%float.
    + now exists 60%float.
    + now exists 0%float.
    + now exists 100%float.
  - right. left. now exists 0%float.
Defined.

(** X25.  [create_portfolio] and [delete_portfolio] pass their two values to
    [cursor.execute] as two positional arguments: on every store and for
    every argument both raise TypeError, and no portfolio row is ever
    inserted or deleted through them. *)
Theorem portfolio_methods_raise (db : store) (user_id : Z) (portfolio_name : string)
        (rowid now : Z) :
  Portfolio.create_portfolio user_id portfolio_name rowid now db
  = (Raise TypeError, db) /\
  Portfolio.delete_portfolio user_id portfolio_name db = (Raise TypeError, db).
Proof. split; reflexivity. Qed.

Lemma delete_ticker_bindings_witness :
  Database.delete_ticker "AAPL" example_store
  = (Raise ProgrammingError, example_store).
Proof.
  apply delete_ticker_bindings.
  - reflexivity.
  - simpl. lia.
Defined.

Lemma str_items_one_character (s : string) :
  String.length s = 1%nat -> str_items s = [s].
Proof.
  destruct s as [|c [|c' s]]; simpl; intro H; try discriminate. reflexivity.
Qed.

Lemma listing_after_delete (symbol : string) (l : list Tickers.row) :
  map (fun t => (Tickers.ticker_symbol t, Tickers.current_price t))
      (filter (fun t => negb (String.eqb (Tickers.ticker_symbol t) symbol)) l)
  = filter (fun sp => negb (String.eqb (fst sp) symbol))
      (map (fun t => (Tickers.ticker_symbol t, Tickers.current_price t)) l).
Proof.
  induction l as [|t l IH]; simpl; trivial.
  destruct (String.eqb (Tickers.ticker_symbol t) symbol); simpl; now rewrite IH.
Qed.

(** X22.  For a symbol of exactly one character the string passed as parameters
    supplies the one binding the statement needs: [delete_ticker] returns
    [None], [get_all_tickers] then lists the former entries without that
    symbol, and users, portfolios and positions are untouched. *)
Theorem delete_ticker_one_character (db : store)
        (listing : list (string * option float)) (symbol : string) :
  String.length symbol = 1%nat ->
  fst (Ticker.get_all_tickers db) = Return listing ->
  let db' := snd (Database.delete_ticker symbol db) in
  fst (Database.delete_ticker symbol db) = Return PyNone /\
  fst (Ticker.get_all_tickers db')
  = Return (filter (fun sp => negb (String.eqb (fst sp) symbol)) listing) /\
  tickers_only db db'.
Proof.
  intros Hlen H db'. subst db'.
  destruct (get_all_tickers_returns db listing H) as (Ht & Hl & _).
  unfold Database.delete_ticker, Sql.delete_ticker, bind, Sql.on_table.
  rewrite Ht, (str_items_one_character symbol Hlen), Ht. simpl.
  split; trivial. split; [|now repeat split].
  rewrite get_all_tickers_eq. unfold Sql.has_table in *. simpl. rewrite Ht.
  simpl. now rewrite listing_after_delete, Hl.
Qed.

Lemma delete_ticker_one_character_witness :
  fst (Ticker.get_all_tickers (snd (Database.delete_ticker "F" example_store)))
  = Return (filter (fun sp => negb (String.eqb (fst sp) "F"))
              [("XYZ"%string, Some 60%float); ("AAPL"%string, Some 100%float); ("F"%string, Some 10%float)]).
Proof.
  apply (delete_ticker_one_character example_store
           [("XYZ"%string, Some 60%float); ("AAPL"%string, Some 100%float); ("F"%string, Some 10%float)] "F").
  - reflexivity.
  - reflexivity.
Defined.
